(** * Request-scoped secrets for Workers: a shallow embedding

    The development follows the TypeScript sources file by file:

    - [JS]              the fragment of JavaScript the sources rely on
                        (values, [typeof], truthiness, records with their
                        prototype, property reads and assignments,
                        exceptions, a heap of records, the console and one
                        [AsyncLocalStorage] slot);
    - [Secrets]         [src/secrets.ts] (all bindings preserved);
    - [SecretsStrings]  the earlier [secrets.ts] that keeps string entries
                        only and offers [getAllSecrets];
    - [DotenvxDecrypt]  [src/dotenvx-decrypt.ts] ([decryptValue],
                        [isEncrypted], [decryptEnv], [createDecryptProxy]).

    A bag ([env : Record<string, unknown>]) is a plain object: a finite map
    of its own enumerable string-keyed properties, with [Object.prototype]
    as its prototype.  The records the code builds with [{}] start the same
    way and may change prototype when [__proto__] is assigned.  Reads walk
    the prototype chain.  Every property is a writable data property but
    the accessor [__proto__] of [Object.prototype]: property attributes are
    not part of the model.  The external primitive [dotenvx.parse] is a
    section variable: a function that either returns a record of strings or
    throws. *)

From Stdlib Require Import String Ascii ZArith List.
From stdpp Require Import base option list gmap strings fin_maps.

Open Scope string_scope.

(* ===================================================================== *)
(** ** The JavaScript fragment *)
(* ===================================================================== *)

Module JS.

(** Addresses of the plain records this code allocates. *)
Definition loc := nat.

(** Runtime values.  [VHandle] stands for an object supplied by the host
    (a KV namespace, a D1 database, ...): it is compared by identity and
    never looked into.  [VRef] is a reference to a record of the heap.
    [VObjectPrototype] is [Object.prototype] and [VBuiltin name] the
    function it holds under [name].  Numbers are kept to the integers: the
    sources only test their type and their truthiness. *)
Inductive Value : Type :=
| VUndefined
| VNull
| VBool (b : bool)
| VNum (n : Z)
| VStr (s : string)
| VHandle (h : nat)
| VRef (l : loc)
| VObjectPrototype
| VBuiltin (name : string).

(** [typeof v]. *)
Definition typeof (v : Value) : string :=
  match v with
  | VUndefined => "undefined"
  | VNull => "object"
  | VBool _ => "boolean"
  | VNum _ => "number"
  | VStr _ => "string"
  | VHandle _ => "object"
  | VRef _ => "object"
  | VObjectPrototype => "object"
  | VBuiltin _ => "function"
  end.

(** Conversion to boolean, as in [if (v)], [!v] and [a && v]. *)
Definition truthy (v : Value) : bool :=
  match v with
  | VUndefined | VNull => false
  | VBool b => b
  | VNum n => negb (n =? 0)%Z
  | VStr s => negb (String.eqb s EmptyString)
  | VHandle _ | VRef _ | VObjectPrototype | VBuiltin _ => true
  end.

(** The value is an object (functions included, [null] excluded). *)
Definition is_object (v : Value) : bool :=
  match v with
  | VHandle _ | VRef _ | VObjectPrototype | VBuiltin _ => true
  | _ => false
  end.

(** [s.startsWith(p)]. *)
Definition startsWith (s p : string) : bool := String.prefix p s.

(** The own properties of a plain object, by name. *)
Abbreviation Obj := (gmap string Value).

(** The names under which [Object.prototype] holds a function. *)
Definition object_prototype_methods : list string :=
  [ "constructor"; "hasOwnProperty"; "isPrototypeOf"; "propertyIsEnumerable";
    "toLocaleString"; "toString"; "valueOf";
    "__defineGetter__"; "__defineSetter__"; "__lookupGetter__"; "__lookupSetter__" ].

(** A read that reaches [Object.prototype]: the getter of [__proto__]
    returns the prototype of the object the read started from, the other
    names of [Object.prototype] give its functions, and any other name is
    [undefined]. *)
Definition object_prototype_get (receiver_proto : Value) (key : string) : Value :=
  if String.eqb key "__proto__" then receiver_proto
  else if existsb (String.eqb key) object_prototype_methods then VBuiltin key
  else VUndefined.

(** [o[key]] and [o.key] on a plain object: the own property, or what
    [Object.prototype] gives. *)
Definition prop (o : Obj) (key : string) : Value :=
  match o !! key with
  | Some v => v
  | None => object_prototype_get VObjectPrototype key
  end.

(** [a ?? b] where [a] is the read of a property of a record of strings:
    the read is nullish exactly when the property is missing. *)
Definition nullish_or (a : option string) (b : string) : string :=
  match a with
  | Some x => x
  | None => b
  end.

(** [Object.entries(o)]. *)
Definition entries (o : Obj) : list (string * Value) := map_to_list o.

(** A record: its own properties and its prototype ([Object.prototype],
    [null], or another object). *)
Record Rec : Type := mkRec {
  own : Obj;
  proto : Value
}.

(** A plain object as a record; [plain ∅] is the literal [{}]. *)
Definition plain (o : Obj) : Rec := mkRec o VObjectPrototype.

(** Exceptions: [new Error(message)], and the [TypeError]s of the
    language with their message. *)
Inductive JsError : Type := Error (message : string).

(** What a call does: it returns or it throws. *)
Inductive outcome (A : Type) : Type :=
| Ok (a : A)
| Throw (e : JsError).
Arguments Ok {A} a.
Arguments Throw {A} e.

(** Lines written to the console. *)
Inductive LogLine : Type :=
| ConsoleError (text : string) (error : JsError)
| ConsoleWarn (text : string).

(** The state a call chain sees: the records allocated so far, the store
    currently bound in the module's [AsyncLocalStorage], the console, and
    [inherited v key]: what a read of [key] finds along the prototype chain
    that starts at [v], for the objects the model does not look into (host
    objects and builtin functions). *)
Record State : Type := mkState {
  heap : gmap loc Rec;
  store : option loc;
  console : list LogLine;
  inherited : Value -> string -> Value
}.

Definition with_heap (h : gmap loc Rec) (s : State) : State :=
  mkState h (store s) (console s) (inherited s).
Definition with_store (c : option loc) (s : State) : State :=
  mkState (heap s) c (console s) (inherited s).
Definition with_console (out : list LogLine) (s : State) : State :=
  mkState (heap s) (store s) out (inherited s).

(** The rest of a read once the own properties have not answered: along
    the chain that starts at the prototype [p].  Host objects and builtin
    functions are ordinary objects: their chain ends in [Object.prototype],
    whose [__proto__] getter answers for them too.  [fuel] bounds the walk
    through records of the heap. *)
Fixpoint chain_get (fuel : nat) (h : gmap loc Rec) (inh : Value -> string -> Value)
    (receiver_proto p : Value) (key : string) : Value :=
  match p with
  | VObjectPrototype => object_prototype_get receiver_proto key
  | VHandle _ | VBuiltin _ =>
      if String.eqb key "__proto__" then receiver_proto else inh p key
  | VRef l =>
      match fuel with
      | O => VUndefined
      | S n =>
          match h !! l with
          | Some r =>
              match own r !! key with
              | Some v => v
              | None => chain_get n h inh receiver_proto (proto r) key
              end
          | None => VUndefined
          end
      end
  | _ => VUndefined
  end.

(** [r[key]] on a record. *)
Definition rec_get (h : gmap loc Rec) (inh : Value -> string -> Value)
    (r : Rec) (key : string) : Value :=
  match own r !! key with
  | Some v => v
  | None => chain_get (S (size h)) h inh (proto r) (proto r) key
  end.

(** The chain that starts at [p] reaches the accessor [__proto__] of
    [Object.prototype] before any data property of that name. *)
Fixpoint reaches_accessor (fuel : nat) (h : gmap loc Rec) (p : Value) : bool :=
  match p with
  | VObjectPrototype | VHandle _ | VBuiltin _ => true
  | VRef l =>
      match fuel with
      | O => false
      | S n =>
          match h !! l with
          | Some r =>
              match own r !! "__proto__" with
              | Some _ => false
              | None => reaches_accessor n h (proto r)
              end
          | None => false
          end
      end
  | _ => false
  end.

(** [r[key] = v] on a record.  A name other than [__proto__], an own
    [__proto__], and a chain without the accessor give an own property.
    Otherwise the setter of [Object.prototype] runs: an object or [null]
    becomes the prototype, any other value is ignored. *)
Definition assign (h : gmap loc Rec) (r : Rec) (key : string) (v : Value) : Rec :=
  if String.eqb key "__proto__" then
    match own r !! key with
    | Some _ => mkRec (<[key := v]> (own r)) (proto r)
    | None =>
        if reaches_accessor (S (size h)) h (proto r) then
          match v with
          | VNull | VHandle _ | VRef _ | VObjectPrototype | VBuiltin _ =>
              mkRec (own r) v
          | _ => r
          end
        else mkRec (<[key := v]> (own r)) (proto r)
    end
  else mkRec (<[key := v]> (own r)) (proto r).

(** The chain that starts at the object [v] goes through the record at
    [l]. *)
Fixpoint goes_through (fuel : nat) (h : gmap loc Rec) (v : Value) (l : loc) : bool :=
  match v with
  | VRef l' =>
      Nat.eqb l' l ||
      match fuel with
      | O => false
      | S n =>
          match h !! l' with
          | Some r => goes_through n h (proto r) l
          | None => false
          end
      end
  | _ => false
  end.

(** Computations: state passing with exceptions.  The state survives a
    throw, as the heap and the console do. *)
Definition M (A : Type) : Type := State -> outcome A * State.

Definition ret {A} (a : A) : M A := fun s => (Ok a, s).

Definition bind {A B} (m : M A) (f : A -> M B) : M B :=
  fun s =>
    match m s with
    | (Ok a, s') => f a s'
    | (Throw e, s') => (Throw e, s')
    end.

Definition throw {A} (e : JsError) : M A := fun s => (Throw e, s).

(** [try { body } catch (error) { handler }]. *)
Definition try_catch {A} (body : M A) (handler : JsError -> M A) : M A :=
  fun s =>
    match body s with
    | (Ok a, s') => (Ok a, s')
    | (Throw e, s') => handler e s'
    end.

(** A call of a function that touches no state. *)
Definition call {A} (r : outcome A) : M A := fun s => (r, s).

(** [for (const x of xs) { acc = body(acc, x) }]. *)
Fixpoint for_of {A X} (body : A -> X -> M A) (acc : A) (xs : list X) : M A :=
  match xs with
  | [] => ret acc
  | x :: rest => bind (body acc x) (fun acc' => for_of body acc' rest)
  end.

(** [console.error(text, error)] and [console.warn(text)]. *)
Definition console_error (text : string) (error : JsError) : M unit :=
  fun s => (Ok tt, with_console (console s ++ [ConsoleError text error]) s).
Definition console_warn (text : string) : M unit :=
  fun s => (Ok tt, with_console (console s ++ [ConsoleWarn text]) s).

(** [r[key] = v] on a record the caller is still building. *)
Definition assign_to (r : Rec) (key : string) (v : Value) : M Rec :=
  fun s => (Ok (assign (heap s) r key v), s).

(** A record reaches the heap at a fresh address. *)
Definition alloc (r : Rec) : M loc :=
  fun s =>
    let l := fresh (dom (heap s)) in
    (Ok l, with_heap (<[l := r]> (heap s)) s).

(** The record behind a reference. *)
Definition deref (l : loc) (s : State) : Rec := default (plain ∅) (heap s !! l).

(** [r[key]] on a record, in the state [s]. *)
Definition lookup_in (s : State) (r : Rec) (key : string) : Value :=
  rec_get (heap s) (inherited s) r key.

(** The own properties of the record behind a reference, as a spread
    reads them. *)
Definition read (l : loc) : M Obj := fun s => (Ok (own (deref l s)), s).

(** [r[key]] through a reference. *)
Definition get_prop (l : loc) (key : string) : M Value :=
  fun s => (Ok (lookup_in s (deref l s) key), s).

(** [r[key] = v] through a reference.  The setter of [__proto__] throws
    when the new prototype's chain goes through the record itself. *)
Definition set_prop (l : loc) (key : string) (v : Value) : M unit :=
  fun s =>
    let r := deref l s in
    if String.eqb key "__proto__"
       && bool_decide (own r !! key = None)
       && reaches_accessor (S (size (heap s))) (heap s) (proto r)
       && goes_through (S (size (heap s))) (heap s) v l
    then (Throw (Error "Cyclic __proto__ value"), s)
    else (Ok tt, with_heap (<[l := assign (heap s) r key v]> (heap s)) s).

(** [AsyncLocalStorage.getStore()]. *)
Definition getStore : M (option loc) := fun s => (Ok (store s), s).

(** [AsyncLocalStorage.run(st, callback)]: the callback runs with [st]
    bound; the binding in force before the call is back when it ends,
    whether the callback returned or threw.  The callback is run to its end
    in one go: one call chain, no suspension. *)
Definition run {T} (st : loc) (callback : M T) : M T :=
  fun s =>
    let outer := store s in
    match callback (with_store (Some st) s) with
    | (r, s') => (r, with_store outer s')
    end.

(** The double quote, for template literals that contain one. *)
Definition dq : string := String "034"%char EmptyString.

End JS.

Import JS.

(** [x ← m; k] and [m;; k] are stdpp's notations for [bind]. *)
#[global] Instance M_ret : MRet M := @ret.
#[global] Instance M_bind : MBind M := fun A B f m => bind m f.

(** An accessor starts with [getStore()]: unfold the read of the binding
    and rewrite with what is known of it. *)
Ltac run_getStore H :=
  unfold mbind, M_bind, bind, getStore; rewrite H; try done.

(** Options handed to [dotenvx.parse]. *)
Record ParseOptions : Type := mkOptions {
  privateKey : Value;
  publicKey : Value
}.

(** The type of the external primitive [dotenvx.parse(src, options)]: it
    throws, or returns a record typed [Record<string, string>], given here
    by what a read of each name yields, a string or nothing. *)
Definition Parser : Type :=
  string -> ParseOptions -> outcome (gmap string string).

(* ===================================================================== *)
(** ** src/secrets.ts *)
(* ===================================================================== *)

Module Secrets.
Section WithParser.

Variable dotenvx_parse : Parser.

(** [decrypt(key, value, privateKey, publicKey)]. *)
Definition decrypt (key value : string) (privateKey publicKey : Value)
  : outcome string :=
  let envString := key +:+ "=" +:+ dq +:+ value +:+ dq in
  match dotenvx_parse envString (mkOptions privateKey publicKey) with
  | Ok parsed => Ok (nullish_or (parsed !! key) value)
  | Throw e => Throw e
  end.

(** One turn of the loop of [withSecrets] over the entry [(key, value)],
    [processedEnv] being the record filled so far. *)
Definition step (privateKey publicKey : Value)
    (processedEnv : Rec) (entry : string * Value) : M Rec :=
  let '(key, value) := entry in
  match value with
  | VStr text =>
      if startsWith text "encrypted:" && truthy privateKey then
        try_catch
          (plain ← call (decrypt key text privateKey publicKey);
           assign_to processedEnv key (VStr plain))
          (fun error =>
             console_error ("[secrets] Failed to decrypt " +:+ key +:+ ":") error;;
             assign_to processedEnv key value)
      else assign_to processedEnv key value
  | _ => assign_to processedEnv key value
  end.

(** The record [processedEnv] that [withSecrets] builds from [env],
    starting from [{}]. *)
Definition processedEnv (env : Obj) : M Rec :=
  let privateKey := prop env "DOTENV_PRIVATE_KEY" in
  let publicKey := prop env "DOTENV_PUBLIC_KEY" in
  for_of (step privateKey publicKey) (plain ∅) (entries env).

(** [withSecrets(env, handler)]. *)
Definition withSecrets {T} (env : Obj) (handler : M T) : M T :=
  processed ← processedEnv env;
  st ← alloc processed;
  run st handler.

(** [getSecret(key)]. *)
Definition getSecret (key : string) : M Value :=
  env ← getStore;
  match env with
  | None =>
      throw (Error "[secrets] getSecret() called outside of withSecrets() context")
  | Some l =>
      value ← get_prop l key;
      ret (if String.eqb (typeof value) "string" then value else VUndefined)
  end.

(** [requireSecret(key)]. *)
Definition requireSecret (key : string) : M Value :=
  value ← getSecret key;
  match value with
  | VUndefined =>
      throw (Error ("[secrets] Required secret " +:+ dq +:+ key +:+ dq +:+ " not found"))
  | _ => ret value
  end.

(** [getBinding(key)]. *)
Definition getBinding (key : string) : M Value :=
  env ← getStore;
  match env with
  | None =>
      throw (Error "[secrets] getBinding() called outside of withSecrets() context")
  | Some l => get_prop l key
  end.

(** [getEnv()]: the store itself is returned. *)
Definition getEnv : M Value :=
  env ← getStore;
  match env with
  | None =>
      throw (Error "[secrets] getEnv() called outside of withSecrets() context")
  | Some l => ret (VRef l)
  end.

End WithParser.
End Secrets.


(* ===================================================================== *)
(** ** The earlier secrets.ts: string entries only *)
(* ===================================================================== *)

Module SecretsStrings.
Section WithParser.

Variable dotenvx_parse : Parser.

(** [decrypt(key, value, privateKey, publicKey)]. *)
Definition decrypt (key value : string) (privateKey publicKey : Value)
  : outcome string :=
  let envString := key +:+ "=" +:+ dq +:+ value +:+ dq in
  match dotenvx_parse envString (mkOptions privateKey publicKey) with
  | Ok parsed => Ok (nullish_or (parsed !! key) value)
  | Throw e => Throw e
  end.

(** One turn of the loop of [withSecrets]; an entry that is not a string
    leaves [secrets] as it is. *)
Definition step (privateKey publicKey : Value)
    (secrets : Rec) (entry : string * Value) : M Rec :=
  let '(key, value) := entry in
  match value with
  | VStr text =>
      if startsWith text "encrypted:" && truthy privateKey then
        try_catch
          (plain ← call (decrypt key text privateKey publicKey);
           assign_to secrets key (VStr plain))
          (fun error =>
             console_error ("[secrets] Failed to decrypt " +:+ key +:+ ":") error;;
             assign_to secrets key value)
      else assign_to secrets key value
  | _ => ret secrets
  end.

(** The record [secrets] that [withSecrets] builds from [env], starting
    from [{}]. *)
Definition secrets (env : Obj) : M Rec :=
  let privateKey := prop env "DOTENV_PRIVATE_KEY" in
  let publicKey := prop env "DOTENV_PUBLIC_KEY" in
  for_of (step privateKey publicKey) (plain ∅) (entries env).

(** [withSecrets(env, handler)]. *)
Definition withSecrets {T} (env : Obj) (handler : M T) : M T :=
  decrypted ← secrets env;
  st ← alloc decrypted;
  run st handler.

(** [getSecret(key)]. *)
Definition getSecret (key : string) : M Value :=
  st ← getStore;
  match st with
  | None =>
      throw (Error ("[secrets] getSecret() called outside of withSecrets() context. "
                    +:+ "Wrap your handler with withSecrets(env, () => ...)"))
  | Some l => get_prop l key
  end.

(** [requireSecret(key)]. *)
Definition requireSecret (key : string) : M Value :=
  value ← getSecret key;
  match value with
  | VUndefined =>
      throw (Error ("[secrets] Required secret " +:+ dq +:+ key +:+ dq +:+ " not found"))
  | _ => ret value
  end.

(** [getAllSecrets()]: the spread [{ ...secrets }] is a new plain object
    with the own properties of the store. *)
Definition getAllSecrets : M Value :=
  st ← getStore;
  match st with
  | None =>
      throw (Error "[secrets] getAllSecrets() called outside of withSecrets() context")
  | Some l =>
      current ← read l;
      copy ← alloc (plain current);
      ret (VRef copy)
  end.

End WithParser.
End SecretsStrings.

(* ===================================================================== *)
(** ** src/dotenvx-decrypt.ts *)
(* ===================================================================== *)

Module DotenvxDecrypt.
Section WithParser.

Variable dotenvx_parse : Parser.

(** [decryptValue(key, encryptedValue, options)]. *)
Definition decryptValue (key encryptedValue : string) (options : ParseOptions)
  : outcome string :=
  let envString := key +:+ "=" +:+ dq +:+ encryptedValue +:+ dq in
  match dotenvx_parse envString
          (mkOptions (privateKey options) (publicKey options)) with
  | Ok parsed => Ok (nullish_or (parsed !! key) encryptedValue)
  | Throw e => Throw e
  end.

(** [isEncrypted(value)]. *)
Definition isEncrypted (value : Value) : bool :=
  match value with
  | VStr text => startsWith text "encrypted:"
  | _ => false
  end.

(** One turn of the loop of [decryptEnv]. *)
Definition step (privateKey publicKey : Value)
    (decrypted : Rec) (entry : string * Value) : M Rec :=
  let '(key, value) := entry in
  match value with
  | VStr text =>
      if isEncrypted value then
        try_catch
          (plain ← call (decryptValue key text
                           (mkOptions privateKey
                              (if String.eqb (typeof publicKey) "string"
                               then publicKey else VUndefined)));
           assign_to decrypted key (VStr plain))
          (fun error =>
             console_error ("[dotenvx] Failed to decrypt " +:+ key +:+ ":") error;;
             assign_to decrypted key value)
      else assign_to decrypted key value
  | _ => ret decrypted
  end.

(** [decryptEnv(env)].  Without a string private key the argument itself
    is returned. *)
Definition decryptEnv (env : Obj) : M Rec :=
  let privateKey := prop env "DOTENV_PRIVATE_KEY" in
  let publicKey := prop env "DOTENV_PUBLIC_KEY" in
  if negb (String.eqb (typeof privateKey) "string") then
    console_warn
      "[dotenvx] DOTENV_PRIVATE_KEY not found - encrypted values will not be decrypted";;
    ret (plain env)
  else
    for_of (step privateKey publicKey) (plain ∅) (entries env).

(** The proxy of [createDecryptProxy]: its target, the keys read once at
    creation, and the cache its [get] trap fills. *)
Record DecryptProxy : Type := mkProxy {
  target : Obj;
  proxyPrivateKey : Value;
  proxyPublicKey : Value;
  cache : gmap string string
}.

(** [createDecryptProxy(env)]. *)
Definition createDecryptProxy (env : Obj) : DecryptProxy :=
  mkProxy env (prop env "DOTENV_PRIVATE_KEY") (prop env "DOTENV_PUBLIC_KEY") ∅.

(** The [get] trap: [proxy[name]], with the proxy as the read leaves it. *)
Definition proxy_get (p : DecryptProxy) (name : string) : Value * DecryptProxy :=
  match cache p !! name with
  | Some hit => (VStr hit, p)
  | None =>
      let value := prop (target p) name in
      match value with
      | VStr text =>
          if isEncrypted value then
            match decryptValue name text
                    (mkOptions (proxyPrivateKey p) (proxyPublicKey p)) with
            | Ok decrypted =>
                (VStr decrypted,
                 mkProxy (target p) (proxyPrivateKey p) (proxyPublicKey p)
                         (<[name := decrypted]> (cache p)))
            | Throw _ => (value, p)
            end
          else (value, p)
      | _ => (value, p)
      end
  end.

(** The proxy after the reads [names], in order. *)
Definition proxy_reads (p : DecryptProxy) (names : list string) : DecryptProxy :=
  foldl (fun q name => snd (proxy_get q name)) p names.

End WithParser.
End DotenvxDecrypt.

(* ===================================================================== *)
(** ** Sample inputs *)
(* ===================================================================== *)

(** Before any call: nothing allocated, no store bound, a silent console. *)
Definition initial : State := mkState ∅ None [] (fun _ _ => VUndefined).

(** A stand-in for [dotenvx.parse]: with the key [k1] it recovers
    [plaintext1] from the single assignment of [encrypted:abc] to
    [MY_SECRET]; it throws on an assignment to [BROKEN]; it returns a record
    without the name otherwise. *)
Definition sample_parse : Parser :=
  fun src options =>
    if String.eqb src ("MY_SECRET=" +:+ dq +:+ "encrypted:abc" +:+ dq) then
      match privateKey options with
      | VStr "k1" => Ok {[ "MY_SECRET" := "plaintext1" ]}
      | _ => Throw (Error "private key does not match")
      end
    else if startsWith src "BROKEN=" then Throw (Error "malformed ciphertext")
    else Ok ∅.

(** The bag of the specification's scenario, with one more entry whose
    decryption fails. *)
Definition sample_env : Obj :=
  <["DOTENV_PRIVATE_KEY" := VStr "k1"]>
    (<["MY_SECRET" := VStr "encrypted:abc"]>
       (<["OTHER" := VStr "plain"]>
          (<["DB" := VHandle 1]>
             (<["BROKEN" := VStr "encrypted:zzz"]> ∅)))).

(** The same bag without its private key. *)
Definition keyless_env : Obj := delete "DOTENV_PRIVATE_KEY" sample_env.

(** A stand-in for a primitive that throws on every input. *)
Definition throwing_parse : Parser :=
  fun _ _ => Throw (Error "malformed ciphertext").

(** Bags with an own property named [__proto__], as [JSON.parse] builds
    them: a plain string, a number, a marked string without a private key,
    and a marked string with one. *)
Definition proto_string_env : Obj :=
  <["__proto__" := VStr "x"]> (<["OTHER" := VStr "plain"]> ∅).
Definition proto_number_env : Obj :=
  <["__proto__" := VNum 42]> ∅.
Definition proto_marked_env : Obj :=
  <["__proto__" := VStr "encrypted:abc"]> ∅.
Definition proto_failing_env : Obj :=
  <["DOTENV_PRIVATE_KEY" := VStr "k1"]> (<["__proto__" := VStr "encrypted:zzz"]> ∅).

(* ===================================================================== *)
(** ** Filling a record entry by entry *)
(* ===================================================================== *)

(** The prototype of a record that had [Object.prototype] for prototype
    once [__proto__] has been assigned [v]. *)
Definition settled (v : Value) : Value :=
  match v with
  | VNull | VHandle _ | VRef _ | VObjectPrototype | VBuiltin _ => v
  | _ => VObjectPrototype
  end.

Section Filling.

(** What a loop over [Object.entries] that defines the own property [key]
    as [x] when [g key value = Some x], and skips the entry otherwise, ends
    with. *)
Definition fill (g : string -> Value -> option Value)
    (acc : Obj) (l : list (string * Value)) : Obj :=
  foldl (fun a kv => match g kv.1 kv.2 with
                     | Some x => <[kv.1 := x]> a
                     | None => a
                     end) acc l.

(** What a loop over [Object.entries] that assigns [acc[key] = x] when
    [g key value = Some x], and skips the entry otherwise, ends with. *)
Definition fill_rec (h : gmap loc Rec) (g : string -> Value -> option Value)
    (acc : Rec) (l : list (string * Value)) : Rec :=
  foldl (fun a kv => match g kv.1 kv.2 with
                     | Some x => assign h a kv.1 x
                     | None => a
                     end) acc l.

Lemma fill_lookup g l : forall (acc : Obj) k,
  NoDup l.*1 ->
  fill g acc l !! k =
    match (list_to_map l : Obj) !! k with
    | Some v => match g k v with Some x => Some x | None => acc !! k end
    | None => acc !! k
    end.
Proof.
  induction l as [|[k0 v0] l IH]; intros acc k Hnd.
  - simpl. by rewrite lookup_empty.
  - apply NoDup_cons in Hnd as [Hk0 Hnd].
    change (fill g acc ((k0, v0) :: l))
      with (fill g (match g k0 v0 with Some x => <[k0 := x]> acc | None => acc end) l).
    rewrite IH by done. clear IH.
    change (list_to_map ((k0, v0) :: l) : Obj) with (<[k0 := v0]> (list_to_map l : Obj)).
    destruct (decide (k = k0)) as [->|Hne].
    + rewrite lookup_insert_eq.
      rewrite (not_elem_of_list_to_map_1 l k0) by done.
      destruct (g k0 v0); [by rewrite lookup_insert_eq | done].
    + rewrite lookup_insert_ne by done.
      destruct (list_to_map l !! k) as [v|] eqn:Hk.
      * destruct (g k v); [done |].
        destruct (g k0 v0); [by rewrite lookup_insert_ne | done].
      * destruct (g k0 v0); [by rewrite lookup_insert_ne | done].
Qed.

(** Over the entries of a plain object, starting from the empty one. *)
Lemma fill_entries_lookup g (env : Obj) k :
  fill g ∅ (entries env) !! k = env !! k ≫= g k.
Proof.
  unfold entries.
  rewrite fill_lookup by apply NoDup_fst_map_to_list.
  rewrite list_to_map_to_list, lookup_empty.
  destruct (env !! k) as [v|]; simpl; [by destruct (g k v) | done].
Qed.

Lemma assign_other h r k v :
  k <> "__proto__" -> assign h r k v = mkRec (<[k := v]> (own r)) (proto r).
Proof.
  intros Hk. unfold assign.
  destruct (String.eqb k "__proto__") eqn:Heq; [| done].
  by apply String.eqb_eq in Heq.
Qed.

(** On a record that still has [Object.prototype] for prototype and no own
    [__proto__], the assignment of [__proto__] runs the setter. *)
Lemma assign_proto_first h o v :
  o !! "__proto__" = None ->
  assign h (plain o) "__proto__" v = mkRec o (settled v).
Proof.
  intros Ho. unfold assign, plain. simpl. rewrite Ho.
  by destruct v.
Qed.

(** Without an entry for [__proto__] the loop defines own properties and
    leaves the prototype alone. *)
Lemma fill_rec_no_proto h g l : forall r,
  "__proto__" ∉ l.*1 ->
  fill_rec h g r l = mkRec (fill g (own r) l) (proto r).
Proof.
  induction l as [|[k0 v0] l IH]; intros r Hl.
  - by destruct r.
  - apply not_elem_of_cons in Hl as [Hk0 Hl]. simpl in Hk0.
    change (fill_rec h g r ((k0, v0) :: l))
      with (fill_rec h g (match g k0 v0 with Some x => assign h r k0 x | None => r end) l).
    change (fill g (own r) ((k0, v0) :: l))
      with (fill g (match g k0 v0 with Some x => <[k0 := x]> (own r) | None => own r end) l).
    rewrite IH by done.
    destruct (g k0 v0) as [x|]; [| done].
    by rewrite assign_other.
Qed.

(** The loop from a plain object without own [__proto__]: the own
    properties are those a loop of definitions gives, the name [__proto__]
    apart, which never becomes an own property; the prototype is what the
    entry for [__proto__], if any, settles. *)
Lemma fill_rec_plain h g l : forall (o : Obj),
  NoDup l.*1 ->
  o !! "__proto__" = None ->
  (forall k, own (fill_rec h g (plain o) l) !! k =
     if String.eqb k "__proto__" then None else fill g o l !! k) /\
  proto (fill_rec h g (plain o) l) =
    match (list_to_map l : Obj) !! "__proto__" ≫= g "__proto__" with
    | Some x => settled x
    | None => VObjectPrototype
    end.
Proof.
  induction l as [|[k0 v0] l IH]; intros o Hnd Ho.
  - simpl. split; [| done]. intros k.
    destruct (String.eqb k "__proto__") eqn:Heq; [| done].
    apply String.eqb_eq in Heq. by subst.
  - apply NoDup_cons in Hnd as [Hk0 Hnd].
    change (fill_rec h g (plain o) ((k0, v0) :: l))
      with (fill_rec h g (match g k0 v0 with
                          | Some x => assign h (plain o) k0 x
                          | None => plain o
                          end) l).
    change (fill g o ((k0, v0) :: l))
      with (fill g (match g k0 v0 with Some x => <[k0 := x]> o | None => o end) l).
    change (list_to_map ((k0, v0) :: l) : Obj) with (<[k0 := v0]> (list_to_map l : Obj)).
    destruct (decide (k0 = "__proto__")) as [->|Hne].
    + (* the entry for __proto__: no other follows *)
      rewrite lookup_insert_eq. simpl.
      assert ((list_to_map l : Obj) !! "__proto__" = None) as Hnone
        by (by apply not_elem_of_list_to_map_1).
      assert (forall (o1 o2 : Obj) k, k <> "__proto__" ->
                o1 !! k = o2 !! k -> fill g o1 l !! k = fill g o2 l !! k) as Hsame.
      { intros o1 o2 k Hk H12. rewrite !fill_lookup by done. by rewrite H12. }
      destruct (g "__proto__" v0) as [x|] eqn:Hg.
      * rewrite assign_proto_first by done.
        rewrite fill_rec_no_proto by done. simpl. split; [| done].
        intros k. destruct (String.eqb k "__proto__") eqn:Heq.
        -- apply String.eqb_eq in Heq. subst.
           rewrite fill_lookup by done. by rewrite Hnone.
        -- apply String.eqb_neq in Heq. apply Hsame; [done |].
           by rewrite lookup_insert_ne.
      * destruct (IH o Hnd Ho) as [Hown Hproto]. split; [done |].
        rewrite Hproto, Hnone. done.
    + rewrite lookup_insert_ne by done.
      destruct (g k0 v0) as [x|] eqn:Hg.
      * rewrite assign_other by done.
        apply (IH (<[k0 := x]> o)); [done |].
        by rewrite lookup_insert_ne.
      * by apply IH.
Qed.

(** Over the entries of a bag, starting from [{}]. *)
Lemma fill_rec_entries h g (env : Obj) :
  (forall k, own (fill_rec h g (plain ∅) (entries env)) !! k =
     if String.eqb k "__proto__" then None else env !! k ≫= g k) /\
  proto (fill_rec h g (plain ∅) (entries env)) =
    match env !! "__proto__" ≫= g "__proto__" with
    | Some x => settled x
    | None => VObjectPrototype
    end.
Proof.
  destruct (fill_rec_plain h g (entries env) ∅) as [Hown Hproto].
  { apply NoDup_fst_map_to_list. }
  { apply lookup_empty. }
  split.
  - intros k. rewrite Hown. by rewrite fill_entries_lookup.
  - rewrite Hproto. unfold entries. by rewrite list_to_map_to_list.
Qed.

(** A bag without own [__proto__] gives a plain object. *)
Lemma fill_rec_entries_plain h g (env : Obj) :
  env !! "__proto__" = None ->
  fill_rec h g (plain ∅) (entries env) = plain (fill g ∅ (entries env)).
Proof.
  intros Hp. apply fill_rec_no_proto.
  intros Hin. apply list_elem_of_fmap in Hin as ([k v] & Hk & Hkv).
  apply elem_of_map_to_list in Hkv. simpl in Hk. subst k. congruence.
Qed.

Lemma for_of_cons {A X} (body : A -> X -> M A) acc x xs :
  for_of body acc (x :: xs) = bind (body acc x) (fun acc' => for_of body acc' xs).
Proof. reflexivity. Qed.

(** The console after a loop that writes [lines entry] at each turn. *)
Definition written (lines : string * Value -> list LogLine)
    (l : list (string * Value)) : list LogLine :=
  flat_map lines l.

(** A loop whose every turn returns: it assigns as [g] says and writes
    as [lines] says, and touches nothing else. *)
Lemma for_of_fill (body : Rec -> string * Value -> M Rec) g lines :
  (forall acc kv s,
     body acc kv s =
       (Ok (match g kv.1 kv.2 with
            | Some x => assign (heap s) acc kv.1 x
            | None => acc
            end),
        with_console (console s ++ lines kv) s)) ->
  forall l acc s,
    for_of body acc l s =
      (Ok (fill_rec (heap s) g acc l),
       with_console (console s ++ written lines l) s).
Proof.
  intros Hbody. induction l as [|kv l IH]; intros acc s; simpl.
  - unfold ret, written. simpl. rewrite app_nil_r. by destruct s.
  - unfold bind. rewrite Hbody, IH. f_equal.
    unfold with_console, written. simpl. by rewrite <- app_assoc.
Qed.

End Filling.

(* ===================================================================== *)
(** ** src/secrets.ts: the snapshot *)
(* ===================================================================== *)

(** The test of [withSecrets] that selects a value for decryption, the key
    apart: [typeof value === 'string' && value.startsWith('encrypted:')]. *)
Definition marked (value : Value) : bool :=
  String.eqb (typeof value) "string" &&
  match value with VStr text => startsWith text "encrypted:" | _ => false end.

(** A state in which the record [r] is the bound store: what a handler
    started by [withSecrets] sees. *)
Definition active_rec (s : State) (r : Rec) : Prop :=
  exists l, store s = Some l /\ heap s !! l = Some r.

(** A state in which the bound store is the plain object [snap]. *)
Definition active (s : State) (snap : Obj) : Prop :=
  active_rec s (plain snap).

(** The state [withSecrets] hands to its handler once [processedEnv] has
    left [s'] and returned [snap]. *)
Definition bound (snap : Rec) (s' : State) : State :=
  with_store (Some (fresh (dom (heap s'))))
    (with_heap (<[fresh (dom (heap s')) := snap]> (heap s')) s').

Section SnapshotFacts.

Variable dotenvx_parse : Parser.

Local Abbreviation decrypt := (Secrets.decrypt dotenvx_parse).
Local Abbreviation processedEnv := (Secrets.processedEnv dotenvx_parse).
Local Abbreviation withSecrets := (Secrets.withSecrets dotenvx_parse).

(** The value one turn of the loop assigns to [processedEnv[key]]. *)
Definition stored (pk pub : Value) (key : string) (value : Value) : Value :=
  match value with
  | VStr text =>
      if startsWith text "encrypted:" && truthy pk then
        match decrypt key text pk pub with
        | Ok plain => VStr plain
        | Throw _ => value
        end
      else value
  | _ => value
  end.

(** The lines one turn of the loop writes to the console. *)
Definition failure (pk pub : Value) (entry : string * Value) : list LogLine :=
  match entry.2 with
  | VStr text =>
      if startsWith text "encrypted:" && truthy pk then
        match decrypt entry.1 text pk pub with
        | Ok _ => []
        | Throw e => [ConsoleError ("[secrets] Failed to decrypt " +:+ entry.1 +:+ ":") e]
        end
      else []
  | _ => []
  end.

Lemma with_console_nil s : with_console (console s ++ []) s = s.
Proof. destruct s. unfold with_console. simpl. by rewrite app_nil_r. Qed.

Lemma assign_to_runs r k v s :
  assign_to r k v s = (Ok (assign (heap s) r k v), with_console (console s ++ []) s).
Proof. unfold assign_to. by rewrite with_console_nil. Qed.

Lemma step_runs pk pub acc kv s :
  Secrets.step dotenvx_parse pk pub acc kv s =
    (Ok (assign (heap s) acc kv.1 (stored pk pub kv.1 kv.2)),
     with_console (console s ++ failure pk pub kv) s).
Proof.
  destruct kv as [key value]. unfold Secrets.step, stored, failure. simpl.
  destruct value; try apply assign_to_runs.
  destruct (startsWith s0 "encrypted:" && truthy pk); [| apply assign_to_runs].
  unfold try_catch, mbind, M_bind, bind, call.
  destruct (decrypt key s0 pk pub) as [plain|e].
  - apply assign_to_runs.
  - reflexivity.
Qed.

(** The loop always returns: the record it returns and the console it
    leaves. *)
Lemma processedEnv_runs env s :
  processedEnv env s =
    (Ok (fill_rec (heap s)
           (fun k v => Some (stored (prop env "DOTENV_PRIVATE_KEY")
                                    (prop env "DOTENV_PUBLIC_KEY") k v))
           (plain ∅) (entries env)),
     with_console
       (console s ++ written (failure (prop env "DOTENV_PRIVATE_KEY")
                                      (prop env "DOTENV_PUBLIC_KEY")) (entries env)) s).
Proof.
  unfold Secrets.processedEnv.
  apply (for_of_fill _ (fun k v => Some (stored _ _ k v))).
  intros acc kv s0. apply step_runs.
Qed.

Lemma settled_stored pk pub k v : settled (stored pk pub k v) = settled v.
Proof.
  unfold stored. destruct v; try done.
  destruct (startsWith s "encrypted:" && truthy pk); [| done].
  by destruct (decrypt k s pk pub).
Qed.

(** The record the loop returns: its own properties are the entries of
    the bag, resolved, but [__proto__], which is never one; its prototype is
    what the bag's entry for [__proto__], if any, settles. *)
Lemma processedEnv_lookup env s snap s' :
  processedEnv env s = (Ok snap, s') ->
  (forall k,
     own snap !! k =
       if String.eqb k "__proto__" then None
       else stored (prop env "DOTENV_PRIVATE_KEY")
                   (prop env "DOTENV_PUBLIC_KEY") k <$> env !! k) /\
  proto snap = match env !! "__proto__" with
               | Some v => settled v
               | None => VObjectPrototype
               end.
Proof.
  rewrite processedEnv_runs. intros [= <- _].
  destruct (fill_rec_entries (heap s)
              (fun k v => Some (stored (prop env "DOTENV_PRIVATE_KEY")
                                       (prop env "DOTENV_PUBLIC_KEY") k v)) env)
    as [Hown Hproto].
  split.
  - intros k. rewrite Hown. by destruct (env !! k).
  - rewrite Hproto. destruct (env !! "__proto__"); simpl; [| done].
    apply settled_stored.
Qed.

(** From a bag without own [__proto__] the loop returns a plain object. *)
Lemma processedEnv_plain env s snap s' :
  env !! "__proto__" = None ->
  processedEnv env s = (Ok snap, s') ->
  exists o,
    snap = plain o /\
    forall k, o !! k = stored (prop env "DOTENV_PRIVATE_KEY")
                              (prop env "DOTENV_PUBLIC_KEY") k <$> env !! k.
Proof.
  intros Hp. rewrite processedEnv_runs. intros [= <- _].
  rewrite fill_rec_entries_plain by done.
  eexists. split; [done |].
  intros k. rewrite fill_entries_lookup. by destruct (env !! k).
Qed.

Lemma processedEnv_memory env s snap s' :
  processedEnv env s = (Ok snap, s') ->
  heap s' = heap s /\ store s' = store s /\ inherited s' = inherited s.
Proof. rewrite processedEnv_runs. by intros [= _ <-]. Qed.

(** [withSecrets] once the loop has returned. *)
Lemma withSecrets_runs {T} env (handler : M T) s snap s' :
  processedEnv env s = (Ok snap, s') ->
  withSecrets env handler s =
    (let '(r, s2) := handler (bound snap s') in (r, with_store (store s) s2)) /\
  active_rec (bound snap s') snap.
Proof.
  intros Hrun. split.
  - unfold Secrets.withSecrets, mbind, M_bind, bind. rewrite Hrun.
    unfold alloc, run, bound. simpl.
    apply processedEnv_memory in Hrun as (_ & -> & _).
    by destruct (handler _).
  - exists (fresh (dom (heap s'))). unfold bound. simpl.
    split; [done | by rewrite lookup_insert_eq].
Qed.

Lemma stored_unmarked pk pub k v : marked v = false -> stored pk pub k v = v.
Proof.
  unfold marked, stored. destruct v; try done. simpl.
  by intros ->.
Qed.

Lemma prop_lookup (o : Obj) k v : o !! k = Some v -> prop o k = v.
Proof. unfold prop. by intros ->. Qed.

Lemma lookup_in_own s r k v : own r !! k = Some v -> lookup_in s r k = v.
Proof. unfold lookup_in, rec_get. by intros ->. Qed.

(** A read on a plain object does not look at the state. *)
Lemma lookup_in_plain s (o : Obj) k : lookup_in s (plain o) k = prop o k.
Proof. unfold lookup_in, rec_get, prop. simpl. by destruct (o !! k). Qed.

Lemma deref_active s r l :
  store s = Some l -> heap s !! l = Some r -> deref l s = r.
Proof. unfold deref. by intros _ ->. Qed.

(** [getBinding] under a bound store reads the store. *)
Lemma getBinding_active_rec s r k :
  active_rec s r -> Secrets.getBinding k s = (Ok (lookup_in s r k), s).
Proof.
  intros (l & Hst & Hl).
  unfold Secrets.getBinding; run_getStore Hst.
  unfold get_prop. by rewrite (deref_active s r l).
Qed.

Lemma getBinding_active s snap k :
  active s snap -> Secrets.getBinding k s = (Ok (prop snap k), s).
Proof.
  intros Hact. rewrite (getBinding_active_rec s (plain snap) k Hact).
  by rewrite lookup_in_plain.
Qed.

(** X19.  From a bag that has no own property named [__proto__], the
    snapshot [withSecrets] builds is a plain object with exactly the names
    of the bag: every value that is not a marked string is the bag's value,
    and that object is the store the handler runs under. *)
Theorem snapshot_has_the_names_of_the_bag {T} (env : Obj) (handler : M T) (s : State) :
  env !! "__proto__" = None ->
  exists snap s',
    processedEnv env s = (Ok (plain snap), s') /\
    dom snap = dom env /\
    (forall k v, env !! k = Some v -> marked v = false -> snap !! k = Some v) /\
    withSecrets env handler s =
      (let '(r, s2) := handler (bound (plain snap) s') in
       (r, with_store (store s) s2)) /\
    active (bound (plain snap) s') snap.
Proof.
  intros Hp.
  destruct (processedEnv env s) as [[snap|e] s'] eqn:Hrun;
    [| by rewrite processedEnv_runs in Hrun].
  destruct (processedEnv_plain env s snap s' Hp Hrun) as (o & -> & Hlook).
  exists o, s'. split; [done |].
  repeat split.
  - apply set_eq. intros k. rewrite !elem_of_dom, Hlook. apply fmap_is_Some.
  - intros k v Hk Hv. rewrite Hlook, Hk. simpl. by rewrite stored_unmarked.
  - by apply withSecrets_runs.
  - by apply (withSecrets_runs env handler s).
Qed.

(** X20.  A value of the bag that is not a string, under a name other than
    [__proto__], is stored as it is, whatever the keys of the bag are, and
    [getBinding] called by the handler returns that very value. *)
Theorem handles_pass_through (env : Obj) (k : string) (v : Value) (s : State) :
  env !! k = Some v ->
  typeof v <> "string" ->
  k <> "__proto__" ->
  exists snap s',
    processedEnv env s = (Ok snap, s') /\
    own snap !! k = Some v /\
    fst (withSecrets env (Secrets.getBinding k) s) = Ok v.
Proof.
  intros Hk Hty Hne.
  destruct (processedEnv env s) as [[snap|e] s'] eqn:Hrun;
    [| by rewrite processedEnv_runs in Hrun].
  exists snap, s'. split; [done |].
  assert (own snap !! k = Some v) as Hsnap.
  { destruct (processedEnv_lookup env s snap s' Hrun) as [Hown _].
    rewrite Hown, Hk. apply String.eqb_neq in Hne. rewrite Hne. simpl.
    f_equal. apply stored_unmarked. unfold marked.
    destruct v; try done. }
  split; [done |].
  destruct (withSecrets_runs env (Secrets.getBinding k) s snap s' Hrun) as [-> Hact].
  rewrite (getBinding_active_rec _ snap k Hact). simpl.
  by rewrite (lookup_in_own _ snap k v).
Qed.

Lemma written_nothing lines l : (forall x, lines x = []) -> written lines l = [].
Proof.
  intros Hl. unfold written. induction l as [|x l IH]; simpl; [done |].
  by rewrite Hl, IH.
Qed.

Lemma stored_keyless pk pub k v : truthy pk = false -> stored pk pub k v = v.
Proof.
  intros Hpk. unfold stored. destruct v; try done.
  rewrite Hpk. by rewrite andb_false_r.
Qed.

Lemma failure_keyless pk pub kv : truthy pk = false -> failure pk pub kv = [].
Proof.
  intros Hpk. unfold failure. destruct (kv.2); try done.
  rewrite Hpk. by rewrite andb_false_r.
Qed.

(** X21.  With the private key absent or empty, and no own [__proto__] in
    the bag, the loop returns the bag itself and leaves the state, the
    console included, as it was, whatever the primitive would have done:
    every marked string is stored unchanged, nothing is thrown, and the
    handler runs. *)
Theorem no_key_no_decryption {T} (env : Obj) (handler : M T) (s : State) :
  env !! "DOTENV_PRIVATE_KEY" = None \/
  env !! "DOTENV_PRIVATE_KEY" = Some (VStr EmptyString) ->
  env !! "__proto__" = None ->
  processedEnv env s = (Ok (plain env), s) /\
  (forall k v, env !! k = Some v -> marked v = true ->
     exists snap, processedEnv env s = (Ok (plain snap), s) /\ snap !! k = Some v) /\
  withSecrets env handler s =
    (let '(r, s2) := handler (bound (plain env) s) in (r, with_store (store s) s2)).
Proof.
  intros Hkey Hp.
  assert (truthy (prop env "DOTENV_PRIVATE_KEY") = false) as Hpk.
  { unfold prop. by destruct Hkey as [-> | ->]. }
  assert (processedEnv env s = (Ok (plain env), s)) as Hrun.
  { rewrite processedEnv_runs. f_equal.
    - f_equal. rewrite fill_rec_entries_plain by done. f_equal.
      apply map_eq. intros k. rewrite fill_entries_lookup.
      destruct (env !! k) as [v|]; simpl; [| done].
      by rewrite stored_keyless.
    - rewrite written_nothing; [apply with_console_nil |].
      intros kv. by apply failure_keyless. }
  split; [done |]. split.
  - intros k v Hk _. by exists env.
  - by apply withSecrets_runs.
Qed.

Lemma written_elem lines l kv line :
  kv ∈ l -> line ∈ lines kv -> line ∈ written lines l.
Proof.
  intros Hkv Hline. unfold written.
  apply list_elem_of_In, in_flat_map. exists kv.
  split; by apply list_elem_of_In.
Qed.

(** X22.  With a private key present, a marked string under a name other
    than [__proto__] whose decryption throws is stored unchanged and the
    failure goes to the console; the loop returns all the same, the handler
    runs under the snapshot, and the own properties of the snapshot differ
    from the bag's, [__proto__] apart, only where a decryption returned. *)
Theorem failed_decryption_keeps_ciphertext {T}
    (env : Obj) (handler : M T) (s : State) (k text : string) (e : JsError) :
  truthy (prop env "DOTENV_PRIVATE_KEY") = true ->
  env !! k = Some (VStr text) ->
  startsWith text "encrypted:" = true ->
  decrypt k text (prop env "DOTENV_PRIVATE_KEY") (prop env "DOTENV_PUBLIC_KEY") = Throw e ->
  k <> "__proto__" ->
  exists snap s',
    processedEnv env s = (Ok snap, s') /\
    own snap !! k = Some (VStr text) /\
    ConsoleError ("[secrets] Failed to decrypt " +:+ k +:+ ":") e ∈ console s' /\
    withSecrets env handler s =
      (let '(r, s2) := handler (bound snap s') in (r, with_store (store s) s2)) /\
    active_rec (bound snap s') snap /\
    (forall k', k' <> "__proto__" -> own snap !! k' <> env !! k' ->
       exists text' plain,
         env !! k' = Some (VStr text') /\
         startsWith text' "encrypted:" = true /\
         decrypt k' text' (prop env "DOTENV_PRIVATE_KEY")
                          (prop env "DOTENV_PUBLIC_KEY") = Ok plain /\
         own snap !! k' = Some (VStr plain)).
Proof.
  intros Hpk Hk Hpre Hthrow Hne.
  destruct (processedEnv env s) as [[snap|e'] s'] eqn:Hrun;
    [| by rewrite processedEnv_runs in Hrun].
  exists snap, s'. split; [done |].
  destruct (processedEnv_lookup env s snap s' Hrun) as [Hlook _].
  split; [| split; [| split; [| split]]].
  - rewrite Hlook, Hk. apply String.eqb_neq in Hne. rewrite Hne. simpl.
    by rewrite Hpre, Hpk, Hthrow.
  - rewrite processedEnv_runs in Hrun. injection Hrun as _ <-. simpl.
    apply elem_of_app. right.
    apply (written_elem _ _ (k, VStr text)).
    + unfold entries. by apply elem_of_map_to_list.
    + unfold failure. simpl. rewrite Hpre, Hpk, Hthrow. simpl.
      apply list_elem_of_singleton. reflexivity.
  - by apply withSecrets_runs.
  - by apply (withSecrets_runs env handler s).
  - intros k' Hne' Hdiff. rewrite Hlook in Hdiff.
    apply String.eqb_neq in Hne'. rewrite Hne' in Hdiff.
    destruct (env !! k') as [v'|] eqn:Hk'; simpl in Hdiff; [| done].
    rewrite Hlook, Hne', Hk'. simpl.
    unfold stored in *. destruct v'; try done.
    destruct (startsWith s0 "encrypted:") eqn:Hs0; simpl in *; [| done].
    destruct (truthy (prop env "DOTENV_PRIVATE_KEY")); [| done].
    destruct (decrypt k' s0 _ _) as [plain|e2] eqn:Hdec; [| done].
    by exists s0, plain.
Qed.

End SnapshotFacts.

Lemma snapshot_has_the_names_of_the_bag_witness :
  exists snap s',
    Secrets.processedEnv sample_parse sample_env initial = (Ok (plain snap), s') /\
    dom snap = dom sample_env /\
    (forall k v, sample_env !! k = Some v -> marked v = false -> snap !! k = Some v) /\
    Secrets.withSecrets sample_parse sample_env (Secrets.getSecret "OTHER") initial =
      (let '(r, s2) := Secrets.getSecret "OTHER" (bound (plain snap) s') in
       (r, with_store (store initial) s2)) /\
    active (bound (plain snap) s') snap.
Proof.
  apply (snapshot_has_the_names_of_the_bag sample_parse sample_env
           (Secrets.getSecret "OTHER") initial).
  reflexivity.
Defined.

Lemma handles_pass_through_witness :
  exists snap s',
    Secrets.processedEnv sample_parse sample_env initial = (Ok snap, s') /\
    own snap !! "DB" = Some (VHandle 1) /\
    fst (Secrets.withSecrets sample_parse sample_env (Secrets.getBinding "DB") initial)
      = Ok (VHandle 1).
Proof.
  apply (handles_pass_through sample_parse sample_env "DB" (VHandle 1) initial).
  - reflexivity.
  - simpl. discriminate.
  - discriminate.
Defined.

Lemma no_key_no_decryption_witness :
  Secrets.processedEnv sample_parse keyless_env initial = (Ok (plain keyless_env), initial) /\
  (forall k v, keyless_env !! k = Some v -> marked v = true ->
     exists snap,
       Secrets.processedEnv sample_parse keyless_env initial = (Ok (plain snap), initial) /\
       snap !! k = Some v) /\
  Secrets.withSecrets sample_parse keyless_env (Secrets.getSecret "MY_SECRET") initial =
    (let '(r, s2) := Secrets.getSecret "MY_SECRET" (bound (plain keyless_env) initial) in
     (r, with_store (store initial) s2)).
Proof.
  apply (no_key_no_decryption sample_parse keyless_env
           (Secrets.getSecret "MY_SECRET") initial).
  - left. reflexivity.
  - reflexivity.
Defined.

Lemma failed_decryption_keeps_ciphertext_witness :
  exists snap s',
    Secrets.processedEnv sample_parse sample_env initial = (Ok snap, s') /\
    own snap !! "BROKEN" = Some (VStr "encrypted:zzz") /\
    ConsoleError ("[secrets] Failed to decrypt " +:+ "BROKEN" +:+ ":")
                 (Error "malformed ciphertext") ∈ console s' /\
    Secrets.withSecrets sample_parse sample_env (Secrets.getSecret "BROKEN") initial =
      (let '(r, s2) := Secrets.getSecret "BROKEN" (bound snap s') in
       (r, with_store (store initial) s2)) /\
    active_rec (bound snap s') snap /\
    (forall k', k' <> "__proto__" -> own snap !! k' <> sample_env !! k' ->
       exists text' plain,
         sample_env !! k' = Some (VStr text') /\
         startsWith text' "encrypted:" = true /\
         Secrets.decrypt sample_parse k' text'
           (prop sample_env "DOTENV_PRIVATE_KEY")
           (prop sample_env "DOTENV_PUBLIC_KEY") = Ok plain /\
         own snap !! k' = Some (VStr plain)).
Proof.
  apply (failed_decryption_keeps_ciphertext sample_parse sample_env
           (Secrets.getSecret "BROKEN") initial "BROKEN" "encrypted:zzz"
           (Error "malformed ciphertext")); try reflexivity.
  discriminate.
Defined.

(** C1.  The snapshot does not have the names of every bag.  On the bag
    with the own properties [__proto__], a string, and [OTHER], the
    assignment [processedEnv[key] = value] for [__proto__] runs the setter
    inherited from [Object.prototype], which ignores a string: the loop
    returns a record whose only own property is [OTHER], and the handler
    reads [Object.prototype] under the name. *)
Theorem snapshot_loses_own_proto_entry :
  exists snap s',
    Secrets.processedEnv sample_parse proto_string_env initial = (Ok snap, s') /\
    proto_string_env !! "__proto__" = Some (VStr "x") /\
    own snap !! "__proto__" = None /\
    map_to_list (own snap) = [("OTHER", VStr "plain")] /\
    proto snap = VObjectPrototype /\
    fst (Secrets.withSecrets sample_parse proto_string_env
           (Secrets.getBinding "__proto__") initial) = Ok VObjectPrototype.
Proof.
  eexists _, _. split; [vm_compute; reflexivity |].
  repeat split; vm_compute; reflexivity.
Qed.

(** C2.  A value that is not a string is not passed through under the
    name [__proto__].  On the bag whose only own property is [__proto__],
    the number 42, the setter ignores the number: the snapshot has no own
    property and [getBinding] returns [Object.prototype], not 42. *)
Theorem number_under_proto_is_not_passed_through :
  exists snap s',
    Secrets.processedEnv sample_parse proto_number_env initial = (Ok snap, s') /\
    proto_number_env !! "__proto__" = Some (VNum 42) /\
    own snap !! "__proto__" = None /\
    fst (Secrets.withSecrets sample_parse proto_number_env
           (Secrets.getBinding "__proto__") initial) = Ok VObjectPrototype.
Proof.
  eexists _, _. split; [vm_compute; reflexivity |].
  repeat split; vm_compute; reflexivity.
Qed.

(** C3.  Without a private key a marked string is not stored under the
    name [__proto__].  On the bag whose only own property is [__proto__], a
    marked string, and which has no private key, the snapshot has no own
    property, and the handler reads [Object.prototype] through [getBinding]
    and [undefined] through [getSecret]. *)
Theorem marked_proto_entry_is_dropped_without_key :
  exists snap s',
    Secrets.processedEnv sample_parse proto_marked_env initial = (Ok snap, s') /\
    proto_marked_env !! "DOTENV_PRIVATE_KEY" = None /\
    proto_marked_env !! "__proto__" = Some (VStr "encrypted:abc") /\
    own snap !! "__proto__" = None /\
    fst (Secrets.withSecrets sample_parse proto_marked_env
           (Secrets.getBinding "__proto__") initial) = Ok VObjectPrototype /\
    fst (Secrets.withSecrets sample_parse proto_marked_env
           (Secrets.getSecret "__proto__") initial) = Ok VUndefined.
Proof.
  eexists _, _. split; [vm_compute; reflexivity |].
  repeat split; vm_compute; reflexivity.
Qed.

(** C4.  A marked string whose decryption throws is not kept under the
    name [__proto__].  With a private key in the bag and a primitive that
    throws, the failure is written to the console, the assignment in the
    [catch] branch runs the setter, which ignores the string, and the
    snapshot has no own [__proto__]. *)
Theorem failed_proto_entry_is_not_kept :
  exists snap s',
    Secrets.processedEnv throwing_parse proto_failing_env initial = (Ok snap, s') /\
    proto_failing_env !! "__proto__" = Some (VStr "encrypted:zzz") /\
    Secrets.decrypt throwing_parse "__proto__" "encrypted:zzz"
      (prop proto_failing_env "DOTENV_PRIVATE_KEY")
      (prop proto_failing_env "DOTENV_PUBLIC_KEY") = Throw (Error "malformed ciphertext") /\
    console s' = [ConsoleError "[secrets] Failed to decrypt __proto__:"
                               (Error "malformed ciphertext")] /\
    own snap !! "__proto__" = None /\
    fst (Secrets.withSecrets throwing_parse proto_failing_env
           (Secrets.getSecret "__proto__") initial) = Ok VUndefined.
Proof.
  eexists _, _. split; [vm_compute; reflexivity |].
  repeat split; vm_compute; reflexivity.
Qed.

(* ===================================================================== *)
(** ** src/secrets.ts: the accessors *)
(* ===================================================================== *)

(** The message of the error an accessor throws without a bound store. *)
Definition outside_context (accessor : string) : string :=
  "[secrets] " +:+ accessor +:+ "() called outside of withSecrets() context".

(** The message of the error [requireSecret] throws for a missing name. *)
Definition not_found (key : string) : string :=
  "[secrets] Required secret " +:+ dq +:+ key +:+ dq +:+ " not found".

(** A message names an accessor when the accessor's call occurs in it. *)
Definition names_accessor (message accessor : string) : bool :=
  match String.index 0 (accessor +:+ "()") message with
  | Some _ => true
  | None => false
  end.

Section AccessorFacts.

Lemma getSecret_active_rec s r k :
  active_rec s r ->
  Secrets.getSecret k s =
    (Ok (if String.eqb (typeof (lookup_in s r k)) "string"
         then lookup_in s r k else VUndefined), s).
Proof.
  intros (l & Hst & Hl).
  unfold Secrets.getSecret; run_getStore Hst.
  unfold get_prop. by rewrite (deref_active s r l).
Qed.



Lemma requireSecret_unfold k s :
  Secrets.requireSecret k s =
    match Secrets.getSecret k s with
    | (Ok VUndefined, s') => (Throw (Error (not_found k)), s')
    | (Ok value, s') => (Ok value, s')
    | (Throw e, s') => (Throw e, s')
    end.
Proof.
  unfold Secrets.requireSecret, mbind, M_bind, bind.
  destruct (Secrets.getSecret k s) as [[value|e] s']; [| done].
  by destruct value.
Qed.


(** Every accessor throws its no-context error in [s] and leaves [s] as it
    is: [getSecret], [getBinding] and [getEnv] with a message that names
    them, [requireSecret] with the message of [getSecret], which it calls. *)
Definition all_throw (s : State) (key : string) : Prop :=
  Secrets.getSecret key s = (Throw (Error (outside_context "getSecret")), s) /\
  Secrets.requireSecret key s = (Throw (Error (outside_context "getSecret")), s) /\
  Secrets.getBinding key s = (Throw (Error (outside_context "getBinding")), s) /\
  Secrets.getEnv s = (Throw (Error (outside_context "getEnv")), s).

Lemma all_throw_unbound s key : store s = None -> all_throw s key.
Proof.
  intros Hst.
  assert (Secrets.getSecret key s = (Throw (Error (outside_context "getSecret")), s))
    as Hget by (unfold Secrets.getSecret; run_getStore Hst).
  repeat split.
  - done.
  - by rewrite requireSecret_unfold, Hget.
  - unfold Secrets.getBinding; run_getStore Hst.
  - unfold Secrets.getEnv; run_getStore Hst.
Qed.

(** [withSecrets] gives back the binding it found. *)
Lemma withSecrets_restores {T} (parse : Parser) (env : Obj) (handler : M T) s :
  store (snd (Secrets.withSecrets parse env handler s)) = store s.
Proof.
  destruct (Secrets.processedEnv parse env s) as [[snap|e] s'] eqn:Hrun;
    [| by rewrite processedEnv_runs in Hrun].
  destruct (withSecrets_runs parse env handler s snap s' Hrun) as [-> _].
  by destruct (handler _).
Qed.

(** C7, as the code has it.  With no store bound every accessor throws and
    the error reaches the caller: [getSecret], [getBinding] and [getEnv]
    name themselves in it, [requireSecret] throws the error of [getSecret].
    This holds before any [withSecrets], and again in the state
    [withSecrets] leaves once its handler has ended, by return or by throw. *)
Theorem accessors_throw_outside_context (s : State) (key : string) :
  store s = None ->
  all_throw s key /\
  (forall (parse : Parser) T (env : Obj) (handler : M T),
     all_throw (snd (Secrets.withSecrets parse env handler s)) key).
Proof.
  intros Hst. split.
  - by apply all_throw_unbound.
  - intros parse T env handler. apply all_throw_unbound.
    by rewrite withSecrets_restores.
Qed.

End AccessorFacts.


Lemma accessors_throw_outside_context_witness :
  all_throw initial "MY_SECRET" /\
  (forall (parse : Parser) T (env : Obj) (handler : M T),
     all_throw (snd (Secrets.withSecrets parse env handler initial)) "MY_SECRET").
Proof.
  apply (accessors_throw_outside_context initial "MY_SECRET"). reflexivity.
Defined.

(** C7, as stated, fails at [requireSecret]: called before any
    [withSecrets], it throws an error whose message names [getSecret] and
    does not name [requireSecret]. *)
Lemma requireSecret_error_names_getSecret :
  exists message,
    Secrets.requireSecret "API_KEY" initial = (Throw (Error message), initial) /\
    names_accessor message "requireSecret" = false /\
    names_accessor message "getSecret" = true.
Proof.
  exists (outside_context "getSecret"). repeat split.
Qed.

(* ===================================================================== *)
(** ** The decryption adapter *)
(* ===================================================================== *)

Section AdapterFacts.

Variable dotenvx_parse : Parser.

(** When the primitive throws, so do [decrypt] and [decryptValue]: nothing
    is caught at the adapter. *)
Lemma decrypt_propagates key value pk pub e :
  dotenvx_parse (key +:+ "=" +:+ dq +:+ value +:+ dq) (mkOptions pk pub) = Throw e ->
  Secrets.decrypt dotenvx_parse key value pk pub = Throw e /\
  DotenvxDecrypt.decryptValue dotenvx_parse key value (mkOptions pk pub) = Throw e.
Proof.
  intros Hparse. unfold Secrets.decrypt, DotenvxDecrypt.decryptValue. simpl.
  by rewrite Hparse.
Qed.


End AdapterFacts.


(** The adapter on the sample primitive: a recovered plaintext, and a raw
    value returned because the primitive held nothing for the name. *)
Example decrypt_sample_recovers :
  Secrets.decrypt sample_parse "MY_SECRET" "encrypted:abc" (VStr "k1") VUndefined
    = Ok "plaintext1".
Proof. reflexivity. Qed.

Example decrypt_sample_falls_back :
  Secrets.decrypt sample_parse "OTHER_SECRET" "encrypted:abc" (VStr "k1") VUndefined
    = Ok "encrypted:abc".
Proof. reflexivity. Qed.

(* ===================================================================== *)
(** ** The whole snapshot: [getEnv] and [getAllSecrets] *)
(* ===================================================================== *)

(** A handler that takes the record an accessor returns, assigns [v] to its
    property [key], then reads with [reader]. *)
Definition write_then_read (whole : M Value) (key : string) (v : Value)
    (reader : M Value) : M Value :=
  returned ← whole;
  match returned with
  | VRef l => set_prop l key v;; reader
  | _ => ret VUndefined
  end.

Section WholeSnapshotFacts.

Variable dotenvx_parse : Parser.

Lemma getEnv_active s l :
  store s = Some l -> Secrets.getEnv s = (Ok (VRef l), s).
Proof.
  intros Hst. unfold Secrets.getEnv; run_getStore Hst.
Qed.

(** An assignment to a name other than [__proto__] defines the own
    property. *)
Lemma set_prop_store l key v s :
  key <> "__proto__" ->
  set_prop l key v s =
    (Ok tt, with_heap (<[l := mkRec (<[key := v]> (own (deref l s)))
                                    (proto (deref l s))]> (heap s)) s).
Proof.
  intros Hne. unfold set_prop.
  rewrite assign_other by done.
  apply String.eqb_neq in Hne. by rewrite Hne.
Qed.

(** An assignment through a reference changes at most the record behind
    it. *)
Lemma set_prop_frame l' key v s l :
  l <> l' ->
  heap (snd (set_prop l' key v s)) !! l = heap s !! l /\
  store (snd (set_prop l' key v s)) = store s.
Proof.
  intros Hne. unfold set_prop.
  destruct (_ && _); simpl; [done |].
  by rewrite lookup_insert_ne.
Qed.

(** C5 at [getEnv].  The record [getEnv] returns is the bound store, not a
    copy of it: whatever the bag, a handler that assigns [v] to a property
    [key] of the returned record, [__proto__] apart, reads [v] back through
    [getBinding]. *)
Theorem getEnv_returns_the_store_itself
    (env : Obj) (key : string) (v : Value) (s : State) :
  key <> "__proto__" ->
  fst (Secrets.withSecrets dotenvx_parse env
         (write_then_read Secrets.getEnv key v (Secrets.getBinding key)) s) = Ok v.
Proof.
  intros Hne.
  destruct (Secrets.processedEnv dotenvx_parse env s) as [[snap|e] s'] eqn:Hrun;
    [| by rewrite processedEnv_runs in Hrun].
  destruct (withSecrets_runs dotenvx_parse env
              (write_then_read Secrets.getEnv key v (Secrets.getBinding key))
              s snap s' Hrun) as [-> (l & Hst & Hl)].
  unfold write_then_read, mbind, M_bind, bind.
  rewrite (getEnv_active _ l Hst), set_prop_store by done.
  rewrite (deref_active _ snap l Hst Hl).
  rewrite (getBinding_active_rec _ (mkRec (<[key := v]> (own snap)) (proto snap)) key).
  - simpl. apply f_equal. apply lookup_in_own. simpl. by rewrite lookup_insert_eq.
  - exists l. simpl. split; [done |]. by rewrite lookup_insert_eq.
Qed.

(** What one turn of the loop of the earlier [withSecrets] assigns, if
    anything. *)
Definition kept_string (pk pub : Value) (key : string) (value : Value) : option Value :=
  match value with
  | VStr _ => Some (stored dotenvx_parse pk pub key value)
  | _ => None
  end.

Lemma strings_step_runs pk pub acc kv s :
  SecretsStrings.step dotenvx_parse pk pub acc kv s =
    (Ok (match kept_string pk pub kv.1 kv.2 with
         | Some x => assign (heap s) acc kv.1 x
         | None => acc
         end),
     with_console (console s ++ failure dotenvx_parse pk pub kv) s).
Proof.
  destruct kv as [key value].
  unfold SecretsStrings.step, kept_string, stored, failure. simpl.
  destruct value; try (unfold ret; by rewrite with_console_nil).
  destruct (startsWith s0 "encrypted:" && truthy pk); [| apply assign_to_runs].
  unfold try_catch, mbind, M_bind, bind, call.
  change (SecretsStrings.decrypt dotenvx_parse key s0 pk pub)
    with (Secrets.decrypt dotenvx_parse key s0 pk pub).
  destruct (Secrets.decrypt dotenvx_parse key s0 pk pub) as [plain|e].
  - apply assign_to_runs.
  - reflexivity.
Qed.

Lemma stored_string pk pub k text :
  exists text', stored dotenvx_parse pk pub k (VStr text) = VStr text'.
Proof.
  unfold stored.
  destruct (startsWith text "encrypted:" && truthy pk); [| by eexists].
  destruct (Secrets.decrypt dotenvx_parse k text pk pub); by eexists.
Qed.

(** The loop of the earlier [withSecrets] always returns, and what it
    returns is a plain object: it only assigns strings, which the setter of
    [__proto__] ignores. *)
Lemma strings_secrets_runs env s :
  exists o,
    SecretsStrings.secrets dotenvx_parse env s =
      (Ok (plain o),
       with_console
         (console s ++ written (failure dotenvx_parse (prop env "DOTENV_PRIVATE_KEY")
                                                      (prop env "DOTENV_PUBLIC_KEY"))
                               (entries env)) s) /\
    forall k,
      o !! k =
        if String.eqb k "__proto__" then None
        else env !! k ≫= kept_string (prop env "DOTENV_PRIVATE_KEY")
                                     (prop env "DOTENV_PUBLIC_KEY") k.
Proof.
  unfold SecretsStrings.secrets.
  rewrite (for_of_fill _ (kept_string (prop env "DOTENV_PRIVATE_KEY")
                                      (prop env "DOTENV_PUBLIC_KEY"))
                         (failure dotenvx_parse (prop env "DOTENV_PRIVATE_KEY")
                                                (prop env "DOTENV_PUBLIC_KEY")))
    by (intros; apply strings_step_runs).
  destruct (fill_rec_entries (heap s)
              (kept_string (prop env "DOTENV_PRIVATE_KEY")
                           (prop env "DOTENV_PUBLIC_KEY")) env) as [Hown Hproto].
  destruct (fill_rec _ _ _ _) as [o p]. simpl in *.
  exists o. split; [| done].
  do 2 f_equal. rewrite Hproto.
  destruct (env !! "__proto__") as [v|]; simpl; [| done].
  unfold kept_string. destruct v as [| | b | n | text | h | l | |]; try done.
  by destruct (stored_string (prop env "DOTENV_PRIVATE_KEY")
                 (prop env "DOTENV_PUBLIC_KEY") "__proto__" text) as (text' & ->).
Qed.

(** X2.  The earlier [withSecrets] keeps the string entries only: its loop
    always returns a plain object in which a name whose value is not a
    string is not an own property, a string under a name other than
    [__proto__] is stored as [src/secrets.ts] stores it, and no name outside
    the bag, nor [__proto__], is an own property. *)
Theorem earlier_snapshot_keeps_strings_only (env : Obj) (s : State) :
  exists snap s',
    SecretsStrings.secrets dotenvx_parse env s = (Ok (plain snap), s') /\
    (forall k v, env !! k = Some v -> typeof v <> "string" -> snap !! k = None) /\
    (forall k text, k <> "__proto__" -> env !! k = Some (VStr text) ->
       snap !! k = Some (stored dotenvx_parse (prop env "DOTENV_PRIVATE_KEY")
                           (prop env "DOTENV_PUBLIC_KEY") k (VStr text))) /\
    (forall k, env !! k = None -> snap !! k = None) /\
    snap !! "__proto__" = None.
Proof.
  destruct (strings_secrets_runs env s) as (o & Hrun & Hlook).
  exists o. eexists. split; [exact Hrun |].
  repeat split.
  - intros k v Hk Hty. rewrite Hlook, Hk.
    destruct (String.eqb k "__proto__"); [done |]. simpl.
    destruct v; try done.
  - intros k text Hne Hk. rewrite Hlook, Hk.
    apply String.eqb_neq in Hne. by rewrite Hne.
  - intros k Hk. rewrite Hlook, Hk. by destruct (String.eqb k "__proto__").
  - by rewrite Hlook.
Qed.

End WholeSnapshotFacts.

Lemma getEnv_returns_the_store_itself_witness :
  fst (Secrets.withSecrets sample_parse sample_env
         (write_then_read Secrets.getEnv "OTHER" (VStr "tampered")
            (Secrets.getBinding "OTHER")) initial) = Ok (VStr "tampered").
Proof.
  apply (getEnv_returns_the_store_itself sample_parse sample_env
           "OTHER" (VStr "tampered") initial).
  discriminate.
Defined.

(** The specification's bag: after a write of [tampered] to [OTHER] through
    the record of [getEnv], [getSecret] no longer returns [plain]. *)
Example getEnv_write_reaches_getSecret :
  fst (Secrets.withSecrets sample_parse sample_env (Secrets.getSecret "OTHER") initial)
    = Ok (VStr "plain") /\
  fst (Secrets.withSecrets sample_parse sample_env
         (write_then_read Secrets.getEnv "OTHER" (VStr "tampered")
            (Secrets.getSecret "OTHER")) initial)
    = Ok (VStr "tampered").
Proof. split; vm_compute; reflexivity. Qed.

(** In the earlier file the same handler, going through [getAllSecrets],
    still reads [plain]. *)
Example getAllSecrets_write_stays_local :
  fst (SecretsStrings.withSecrets sample_parse sample_env
         (write_then_read SecretsStrings.getAllSecrets "OTHER" (VStr "tampered")
            (SecretsStrings.getSecret "OTHER")) initial)
    = Ok (VStr "plain").
Proof. vm_compute. reflexivity. Qed.

Section CopyFacts.

Lemma strings_getSecret_active s snap k :
  active s snap -> SecretsStrings.getSecret k s = (Ok (prop snap k), s).
Proof.
  intros (l & Hst & Hl).
  unfold SecretsStrings.getSecret; run_getStore Hst.
  unfold get_prop. by rewrite (deref_active s (plain snap) l), lookup_in_plain.
Qed.

(** X1.  [getAllSecrets] of the earlier file returns a copy.  Under a bound
    store [snap] it returns a reference to a record that was not in the heap
    before, holds the properties of [snap], and is not the store: after
    any assignment through it, [getSecret] still reads [snap]. *)
Theorem getAllSecrets_returns_a_copy (s : State) (snap : Obj) :
  active s snap ->
  exists l' s1,
    SecretsStrings.getAllSecrets s = (Ok (VRef l'), s1) /\
    heap s !! l' = None /\
    heap s1 !! l' = Some (plain snap) /\
    store s1 = store s /\
    (forall key v k,
       SecretsStrings.getSecret k (snd (set_prop l' key v s1)) =
         (Ok (prop snap k), snd (set_prop l' key v s1))).
Proof.
  intros (l & Hst & Hl).
  exists (fresh (dom (heap s))),
    (with_heap (<[fresh (dom (heap s)) := plain snap]> (heap s)) s).
  assert (heap s !! fresh (dom (heap s)) = None) as Hfresh.
  { apply not_elem_of_dom, is_fresh. }
  split; [| split; [| split; [| split]]].
  - unfold SecretsStrings.getAllSecrets; run_getStore Hst.
    unfold read, alloc, ret. by rewrite (deref_active s (plain snap) l).
  - done.
  - simpl. by rewrite lookup_insert_eq.
  - done.
  - intros key v k. apply strings_getSecret_active.
    assert (l <> fresh (dom (heap s))) as Hne
      by (intros Heq; rewrite <- Heq in Hfresh; congruence).
    destruct (set_prop_frame (fresh (dom (heap s))) key v
                (with_heap (<[fresh (dom (heap s)) := plain snap]> (heap s)) s) l Hne)
      as [Hheap Hstore].
    exists l. split; [by rewrite Hstore |].
    rewrite Hheap. simpl. by rewrite lookup_insert_ne.
Qed.

End CopyFacts.

Lemma getAllSecrets_returns_a_copy_witness :
  exists l' s1,
    SecretsStrings.getAllSecrets (bound (plain sample_env) initial) = (Ok (VRef l'), s1) /\
    heap (bound (plain sample_env) initial) !! l' = None /\
    heap s1 !! l' = Some (plain sample_env) /\
    store s1 = store (bound (plain sample_env) initial) /\
    (forall key v k,
       SecretsStrings.getSecret k (snd (set_prop l' key v s1)) =
         (Ok (prop sample_env k), snd (set_prop l' key v s1))).
Proof.
  apply (getAllSecrets_returns_a_copy (bound (plain sample_env) initial) sample_env).
  exists 0. split; reflexivity.
Defined.

(* ===================================================================== *)
(** ** src/dotenvx-decrypt.ts: eager and lazy decryption *)
(* ===================================================================== *)

(** The options [decryptEnv] passes to [decryptValue]. *)
Definition eager_options (env : Obj) : ParseOptions :=
  mkOptions (prop env "DOTENV_PRIVATE_KEY")
            (if String.eqb (typeof (prop env "DOTENV_PUBLIC_KEY")) "string"
             then prop env "DOTENV_PUBLIC_KEY" else VUndefined).

(** The options the [get] trap passes to [decryptValue]. *)
Definition lazy_options (env : Obj) : ParseOptions :=
  mkOptions (prop env "DOTENV_PRIVATE_KEY") (prop env "DOTENV_PUBLIC_KEY").

Section EagerLazyFacts.

Variable dotenvx_parse : Parser.

Local Abbreviation decryptValue := (DotenvxDecrypt.decryptValue dotenvx_parse).
Local Abbreviation decryptEnv := (DotenvxDecrypt.decryptEnv dotenvx_parse).
Local Abbreviation proxy_get := (DotenvxDecrypt.proxy_get dotenvx_parse).
Local Abbreviation proxy_reads := (DotenvxDecrypt.proxy_reads dotenvx_parse).

(** What a string is replaced by, under the options [options]. *)
Definition resolved (options : ParseOptions) (key : string) (value : Value) : Value :=
  match value with
  | VStr text =>
      if DotenvxDecrypt.isEncrypted value then
        match decryptValue key text options with
        | Ok plain => VStr plain
        | Throw _ => value
        end
      else value
  | _ => value
  end.

(** What one turn of the loop of [decryptEnv] assigns, if anything. *)
Definition kept (options : ParseOptions) (key : string) (value : Value) : option Value :=
  match value with
  | VStr _ => Some (resolved options key value)
  | _ => None
  end.

(** The lines one turn of the loop of [decryptEnv] writes. *)
Definition eager_failure (options : ParseOptions) (entry : string * Value) : list LogLine :=
  match entry.2 with
  | VStr text =>
      if DotenvxDecrypt.isEncrypted entry.2 then
        match decryptValue entry.1 text options with
        | Ok _ => []
        | Throw e => [ConsoleError ("[dotenvx] Failed to decrypt " +:+ entry.1 +:+ ":") e]
        end
      else []
  | _ => []
  end.

Lemma eager_step_runs env acc kv s :
  DotenvxDecrypt.step dotenvx_parse
      (prop env "DOTENV_PRIVATE_KEY") (prop env "DOTENV_PUBLIC_KEY") acc kv s =
    (Ok (match kept (eager_options env) kv.1 kv.2 with
         | Some x => assign (heap s) acc kv.1 x
         | None => acc
         end),
     with_console (console s ++ eager_failure (eager_options env) kv) s).
Proof.
  destruct kv as [key value].
  unfold DotenvxDecrypt.step, kept, resolved, eager_failure. simpl.
  destruct value; try (unfold ret; by rewrite with_console_nil).
  destruct (DotenvxDecrypt.isEncrypted (VStr s0)); [| apply assign_to_runs].
  unfold try_catch, mbind, M_bind, bind, call.
  fold (eager_options env).
  destruct (decryptValue key s0 (eager_options env)) as [plain|e].
  - apply assign_to_runs.
  - reflexivity.
Qed.

Lemma resolved_string options k text :
  exists text', resolved options k (VStr text) = VStr text'.
Proof.
  unfold resolved.
  destruct (DotenvxDecrypt.isEncrypted (VStr text)); [| by eexists].
  destruct (decryptValue k text options); by eexists.
Qed.

(** [decryptEnv] always returns a plain object: the argument itself
    without a string private key, and otherwise the string entries,
    resolved, but [__proto__], for which the setter ignores the string. *)
Lemma decryptEnv_runs env s :
  exists eager s',
    decryptEnv env s = (Ok (plain eager), s') /\
    forall k,
      eager !! k =
        if String.eqb (typeof (prop env "DOTENV_PRIVATE_KEY")) "string"
        then (if String.eqb k "__proto__" then None
              else env !! k ≫= kept (eager_options env) k)
        else env !! k.
Proof.
  unfold DotenvxDecrypt.decryptEnv.
  destruct (String.eqb (typeof (prop env "DOTENV_PRIVATE_KEY")) "string") eqn:Hpk; simpl.
  - rewrite (for_of_fill _ (kept (eager_options env)) (eager_failure (eager_options env)))
      by (intros; apply eager_step_runs).
    destruct (fill_rec_entries (heap s) (kept (eager_options env)) env) as [Hown Hproto].
    destruct (fill_rec _ _ _ _) as [o p]. simpl in *.
    exists o. eexists. split; [| done].
    do 2 f_equal. rewrite Hproto.
    destruct (env !! "__proto__") as [v|]; simpl; [| done].
    unfold kept. destruct v as [| | b | n | text | h | l | |]; try done.
    by destruct (resolved_string (eager_options env) "__proto__" text) as (text' & ->).
  - unfold mbind, M_bind, bind, console_warn, ret. by eexists _, _.
Qed.

(** The cache of a proxy over [env] holds only plaintexts that
    [decryptValue] returned for marked strings of [env]. *)
Definition proxy_over (env : Obj) (p : DotenvxDecrypt.DecryptProxy) : Prop :=
  DotenvxDecrypt.target p = env /\
  DotenvxDecrypt.proxyPrivateKey p = prop env "DOTENV_PRIVATE_KEY" /\
  DotenvxDecrypt.proxyPublicKey p = prop env "DOTENV_PUBLIC_KEY" /\
  forall k plain,
    DotenvxDecrypt.cache p !! k = Some plain ->
    exists text,
      env !! k = Some (VStr text) /\
      startsWith text "encrypted:" = true /\
      decryptValue k text (lazy_options env) = Ok plain.

(** A read of a plain object gives a string only from an own property. *)
Lemma prop_string (o : Obj) k text : prop o k = VStr text -> o !! k = Some (VStr text).
Proof.
  unfold prop. destruct (o !! k) as [v|]; [by intros -> |].
  unfold object_prototype_get.
  destruct (String.eqb k "__proto__"); [done |].
  by destruct (existsb _ _).
Qed.

Lemma proxy_over_create env : proxy_over env (DotenvxDecrypt.createDecryptProxy env).
Proof.
  unfold proxy_over, DotenvxDecrypt.createDecryptProxy. simpl.
  repeat split. intros k plain. by rewrite lookup_empty.
Qed.

(** A read returns the resolved value of the name, cached or not, and
    leaves a proxy over the same bag. *)
Lemma proxy_get_over env p name :
  proxy_over env p ->
  fst (proxy_get p name) = resolved (lazy_options env) name (prop env name) /\
  proxy_over env (snd (proxy_get p name)).
Proof.
  intros (Ht & Hpk & Hpub & Hcache).
  unfold DotenvxDecrypt.proxy_get.
  destruct (DotenvxDecrypt.cache p !! name) as [hit|] eqn:Hhit.
  - destruct (Hcache name hit Hhit) as (text & Hname & Hpre & Hdec).
    split; [| done]. simpl.
    rewrite (prop_lookup env name (VStr text) Hname).
    unfold resolved. simpl. by rewrite Hpre, Hdec.
  - rewrite Ht, Hpk, Hpub. fold (lazy_options env).
    destruct (prop env name) eqn:Hv; try (split; [done | by repeat split]).
    unfold resolved.
    destruct (DotenvxDecrypt.isEncrypted (VStr s)) eqn:Henc;
      [| split; [done | by repeat split]].
    destruct (decryptValue name s (lazy_options env)) as [plain|e] eqn:Hdec;
      [| split; [done | by repeat split]].
    split; [done |]. repeat split; simpl; try done.
    intros k plain' Hk.
    destruct (decide (k = name)) as [->|Hne].
    + rewrite lookup_insert_eq in Hk. injection Hk as <-.
      exists s. repeat split; try done. by apply prop_string.
    + rewrite lookup_insert_ne in Hk by done. by apply Hcache.
Qed.

Lemma proxy_reads_over env names : forall p,
  proxy_over env p -> proxy_over env (proxy_reads p names).
Proof.
  induction names as [|name names IH]; intros p Hp; [done |].
  simpl. apply IH. by apply proxy_get_over.
Qed.

Lemma eager_options_lazy env :
  typeof (prop env "DOTENV_PUBLIC_KEY") = "string" \/
  prop env "DOTENV_PUBLIC_KEY" = VUndefined ->
  eager_options env = lazy_options env.
Proof.
  unfold eager_options, lazy_options. intros [Hty | Hun].
  - by rewrite Hty.
  - by rewrite Hun.
Qed.

Lemma resolved_not_encrypted options name v :
  DotenvxDecrypt.isEncrypted v = false -> resolved options name v = v.
Proof. unfold resolved. destruct v; try done. by intros ->. Qed.

(** X23.  After any reads, the proxy of [createDecryptProxy] returns for
    [name] what the record of [decryptEnv] holds for it in these cases.
    With a private key that is a string: [name] is not an own property of
    the bag; or it is a string under a name other than [__proto__], and,
    when that string is marked, the public key is a string or undefined.
    With a private key that is not a string: the value of [name] is not a
    marked string. *)
Theorem lazy_agrees_with_eager_on_strings
    (env : Obj) (names : list string) (name : string) (s : State) :
  (typeof (prop env "DOTENV_PRIVATE_KEY") = "string" /\
   (env !! name = None \/
    exists text,
      name <> "__proto__" /\
      env !! name = Some (VStr text) /\
      (startsWith text "encrypted:" = true ->
       typeof (prop env "DOTENV_PUBLIC_KEY") = "string" \/
       prop env "DOTENV_PUBLIC_KEY" = VUndefined)))
  \/
  (typeof (prop env "DOTENV_PRIVATE_KEY") <> "string" /\
   DotenvxDecrypt.isEncrypted (prop env name) = false) ->
  exists eager s',
    decryptEnv env s = (Ok (plain eager), s') /\
    fst (proxy_get (proxy_reads (DotenvxDecrypt.createDecryptProxy env) names) name)
      = prop eager name.
Proof.
  intros Hcase.
  destruct (decryptEnv_runs env s) as (eager & s' & Hrun & Hlook).
  exists eager, s'. split; [done |].
  destruct (proxy_get_over env
              (proxy_reads (DotenvxDecrypt.createDecryptProxy env) names) name)
    as [-> _].
  { apply proxy_reads_over, proxy_over_create. }
  unfold prop at 2. rewrite Hlook.
  destruct Hcase as [(Hpk & Hname) | (Hpk & Henc)].
  - rewrite Hpk. simpl.
    destruct Hname as [Hnone | (text & Hne & Hsome & Hpub)].
    + rewrite Hnone. simpl.
      assert (prop env name = object_prototype_get VObjectPrototype name) as ->
        by (unfold prop; by rewrite Hnone).
      destruct (String.eqb name "__proto__");
        (apply resolved_not_encrypted; unfold object_prototype_get;
         destruct (String.eqb name "__proto__"); [done |];
         by destruct (existsb _ _)).
    + apply String.eqb_neq in Hne. rewrite Hne, Hsome. simpl.
      rewrite (prop_lookup env name (VStr text) Hsome).
      unfold resolved. simpl.
      destruct (startsWith text "encrypted:") eqn:Hpre; [| done].
      by rewrite (eager_options_lazy env (Hpub eq_refl)).
  - destruct (String.eqb (typeof (prop env "DOTENV_PRIVATE_KEY")) "string") eqn:Heq.
    + by apply String.eqb_eq in Heq.
    + rewrite resolved_not_encrypted by done. unfold prop. done.
Qed.

End EagerLazyFacts.

Lemma lazy_agrees_with_eager_on_strings_witness :
  exists eager s',
    DotenvxDecrypt.decryptEnv sample_parse sample_env initial = (Ok (plain eager), s') /\
    fst (DotenvxDecrypt.proxy_get sample_parse
           (DotenvxDecrypt.proxy_reads sample_parse
              (DotenvxDecrypt.createDecryptProxy sample_env)
              ["MY_SECRET"; "OTHER"; "MY_SECRET"])
           "MY_SECRET")
      = prop eager "MY_SECRET".
Proof.
  apply (lazy_agrees_with_eager_on_strings sample_parse sample_env
           ["MY_SECRET"; "OTHER"; "MY_SECRET"] "MY_SECRET" initial).
  left. split; [reflexivity |].
  right. exists "encrypted:abc".
  split; [discriminate |]. split; [reflexivity |].
  intros _. right. reflexivity.
Defined.

(** C6.  The lazy and the eager variant do not agree on every name.  On
    the sample bag, whose private key is a string, [decryptEnv] returns a
    record without the binding [DB], although non-encrypted values are to
    pass through unchanged, while the proxy returns the binding. *)
Theorem lazy_returns_a_handle_eager_drops :
  exists eager s',
    DotenvxDecrypt.decryptEnv sample_parse sample_env initial = (Ok (plain eager), s') /\
    sample_env !! "DB" = Some (VHandle 1) /\
    eager !! "DB" = None /\
    prop eager "DB" = VUndefined /\
    fst (DotenvxDecrypt.proxy_get sample_parse
           (DotenvxDecrypt.createDecryptProxy sample_env) "DB") = VHandle 1.
Proof.
  eexists _, _. split; [vm_compute; reflexivity |].
  repeat split; vm_compute; reflexivity.
Qed.

(** Both strategies on the marked string of the sample bag. *)
Example lazy_and_eager_decrypt_my_secret :
  fst (DotenvxDecrypt.proxy_get sample_parse
         (DotenvxDecrypt.createDecryptProxy sample_env) "MY_SECRET")
    = VStr "plaintext1" /\
  exists eager s',
    DotenvxDecrypt.decryptEnv sample_parse sample_env initial = (Ok (plain eager), s') /\
    eager !! "MY_SECRET" = Some (VStr "plaintext1").
Proof.
  split; [vm_compute; reflexivity |].
  eexists _, _. split; vm_compute; reflexivity.
Qed.

(** On a bag with an own string [__proto__] the proxy returns the string
    and the record of [decryptEnv] does not hold it. *)
Example lazy_returns_own_proto_eager_drops :
  fst (DotenvxDecrypt.proxy_get sample_parse
         (DotenvxDecrypt.createDecryptProxy
            (<["DOTENV_PRIVATE_KEY" := VStr "k1"]> proto_string_env)) "__proto__")
    = VStr "x" /\
  exists eager s',
    DotenvxDecrypt.decryptEnv sample_parse
      (<["DOTENV_PRIVATE_KEY" := VStr "k1"]> proto_string_env) initial
      = (Ok (plain eager), s') /\
    prop eager "__proto__" = VObjectPrototype.
Proof.
  split; [vm_compute; reflexivity |].
  eexists _, _. split; vm_compute; reflexivity.
Qed.
(* ===================================================================== *)
(** ** src/secrets.ts: more on the snapshot and its readers *)
(* ===================================================================== *)

(** A bag with no marked string. *)
Definition plain_env : Obj :=
  <["DOTENV_PRIVATE_KEY" := VStr "k1"]>
    (<["OTHER" := VStr "plain"]> (<["DB" := VHandle 1]> ∅)).

Section ReaderFacts.

Variable dotenvx_parse : Parser.

Local Abbreviation decrypt := (Secrets.decrypt dotenvx_parse).
Local Abbreviation processedEnv := (Secrets.processedEnv dotenvx_parse).
Local Abbreviation withSecrets := (Secrets.withSecrets dotenvx_parse).

Lemma written_nothing_in lines (l : list (string * Value)) :
  (forall x, x ∈ l -> lines x = []) -> written lines l = [].
Proof.
  unfold written. induction l as [|x l IH]; intros Hl; simpl; [done |].
  rewrite (Hl x) by apply list_elem_of_here.
  apply IH. intros y Hy. apply Hl. by apply list_elem_of_further.
Qed.

(** What the readers return when they are the handler. *)
Lemma withSecrets_getBinding env k s snap s' :
  processedEnv env s = (Ok snap, s') ->
  fst (withSecrets env (Secrets.getBinding k) s) = Ok (lookup_in (bound snap s') snap k).
Proof.
  intros Hrun.
  destruct (withSecrets_runs dotenvx_parse env (Secrets.getBinding k) s snap s' Hrun)
    as [-> Hact].
  by rewrite (getBinding_active_rec _ snap k Hact).
Qed.

Lemma withSecrets_getSecret env k s snap s' :
  processedEnv env s = (Ok snap, s') ->
  fst (withSecrets env (Secrets.getSecret k) s) =
    Ok (if String.eqb (typeof (lookup_in (bound snap s') snap k)) "string"
        then lookup_in (bound snap s') snap k else VUndefined).
Proof.
  intros Hrun.
  destruct (withSecrets_runs dotenvx_parse env (Secrets.getSecret k) s snap s' Hrun)
    as [-> Hact].
  by rewrite (getSecret_active_rec _ snap k Hact).
Qed.

(** An own property of the snapshot is what both readers find. *)
Lemma withSecrets_reads_own env k v s snap s' :
  processedEnv env s = (Ok snap, s') ->
  own snap !! k = Some v ->
  fst (withSecrets env (Secrets.getBinding k) s) = Ok v /\
  fst (withSecrets env (Secrets.getSecret k) s) =
    Ok (if String.eqb (typeof v) "string" then v else VUndefined).
Proof.
  intros Hrun Hk. split.
  - rewrite (withSecrets_getBinding env k s snap s' Hrun).
    by rewrite (lookup_in_own _ snap k v Hk).
  - rewrite (withSecrets_getSecret env k s snap s' Hrun).
    by rewrite (lookup_in_own _ snap k v Hk).
Qed.

(** X3.  With a private key present, a marked string under a name other
    than [__proto__] that [decrypt] resolves is replaced by the plaintext,
    and both [getSecret] and [getBinding] return the plaintext to the
    handler. *)
Theorem successful_decryption_stores_plaintext
    (env : Obj) (s : State) (k text plain : string) :
  truthy (prop env "DOTENV_PRIVATE_KEY") = true ->
  env !! k = Some (VStr text) ->
  startsWith text "encrypted:" = true ->
  decrypt k text (prop env "DOTENV_PRIVATE_KEY") (prop env "DOTENV_PUBLIC_KEY") = Ok plain ->
  k <> "__proto__" ->
  exists snap s',
    processedEnv env s = (Ok snap, s') /\
    own snap !! k = Some (VStr plain) /\
    fst (withSecrets env (Secrets.getSecret k) s) = Ok (VStr plain) /\
    fst (withSecrets env (Secrets.getBinding k) s) = Ok (VStr plain).
Proof.
  intros Hpk Hk Hpre Hdec Hne.
  destruct (processedEnv env s) as [[snap|e] s'] eqn:Hrun;
    [| by rewrite processedEnv_runs in Hrun].
  assert (own snap !! k = Some (VStr plain)) as Hsnap.
  { destruct (processedEnv_lookup dotenvx_parse env s snap s' Hrun) as [Hown _].
    rewrite Hown, Hk. apply String.eqb_neq in Hne. rewrite Hne. simpl.
    by rewrite Hpre, Hpk, Hdec. }
  exists snap, s'.
  destruct (withSecrets_reads_own env k _ s snap s' Hrun Hsnap) as [Hb Hs].
  by repeat split.
Qed.

(** X4.  A bag without marked strings and without own [__proto__] is
    its own snapshot: the loop returns the bag and writes nothing, whatever
    the keys and the primitive. *)
Theorem unmarked_bag_is_its_own_snapshot (env : Obj) (s : State) :
  map_Forall (fun _ v => marked v = false) env ->
  env !! "__proto__" = None ->
  processedEnv env s = (Ok (plain env), s).
Proof.
  intros Hplain Hp. rewrite processedEnv_runs. f_equal.
  - f_equal. rewrite fill_rec_entries_plain by done. f_equal.
    apply map_eq. intros k. rewrite fill_entries_lookup.
    destruct (env !! k) as [v|] eqn:Hk; simpl; [| done].
    by rewrite stored_unmarked by apply (Hplain k v Hk).
  - rewrite written_nothing_in; [apply with_console_nil |].
    intros [k v] Hkv. apply elem_of_map_to_list in Hkv.
    specialize (Hplain k v Hkv). simpl in Hplain.
    unfold failure, marked in *. simpl.
    destruct v; try done. simpl in Hplain. by rewrite Hplain.
Qed.

(** X5.  The console gains exactly the failures: the lines the loop writes are
    those of the marked strings whose decryption threw under a present key,
    one text per name with the error caught, and nothing else. *)
Theorem console_gains_exactly_the_failures (env : Obj) (s : State) :
  exists snap s' (lines : list LogLine),
    processedEnv env s = (Ok snap, s') /\
    console s' = (console s ++ lines)%list /\
    forall line,
      line ∈ lines <->
      exists k text e,
        env !! k = Some (VStr text) /\
        startsWith text "encrypted:" = true /\
        truthy (prop env "DOTENV_PRIVATE_KEY") = true /\
        decrypt k text (prop env "DOTENV_PRIVATE_KEY")
                       (prop env "DOTENV_PUBLIC_KEY") = Throw e /\
        line = ConsoleError ("[secrets] Failed to decrypt " +:+ k +:+ ":") e.
Proof.
  eexists _, _, _. split; [apply processedEnv_runs |]. split; [done |].
  intros line. unfold written.
  rewrite list_elem_of_In, in_flat_map. split.
  - intros ([k v] & Hkv & Hline).
    apply list_elem_of_In, elem_of_map_to_list in Hkv.
    apply list_elem_of_In in Hline. unfold failure in Hline. simpl in Hline.
    destruct v; try by apply elem_of_nil in Hline.
    destruct (startsWith s0 "encrypted:") eqn:Hpre;
      [| by apply elem_of_nil in Hline].
    destruct (truthy (prop env "DOTENV_PRIVATE_KEY")) eqn:Hpk;
      [| by apply elem_of_nil in Hline].
    simpl in Hline.
    destruct (decrypt k s0 _ _) as [plain|e] eqn:Hdec;
      [by apply elem_of_nil in Hline |].
    apply list_elem_of_singleton in Hline.
    by exists k, s0, e.
  - intros (k & text & e & Hk & Hpre & Hpk & Hdec & ->).
    exists (k, VStr text). split.
    + apply list_elem_of_In. unfold entries. by apply elem_of_map_to_list.
    + unfold failure. simpl. rewrite Hpre, Hpk, Hdec. simpl. by left.
Qed.

(** X7.  Nesting.  A [withSecrets] called by the handler of another binds
    its own snapshot for its handler, and when it returns the readers of the
    outer handler read the outer snapshot again. *)
Theorem nested_withSecrets_shadows_then_restores
    (outer inner : Obj) (k_outer k_inner : string) (s : State) :
  exists snap_outer snap_inner s1 s2,
    processedEnv outer s = (Ok snap_outer, s1) /\
    processedEnv inner (bound snap_outer s1) = (Ok snap_inner, s2) /\
    fst (withSecrets outer
           (a ← withSecrets inner (Secrets.getBinding k_inner);
            b ← Secrets.getBinding k_outer;
            ret (a, b)) s)
      = Ok (lookup_in (bound snap_inner s2) snap_inner k_inner,
            lookup_in (bound snap_inner s2) snap_outer k_outer).
Proof.
  destruct (processedEnv outer s) as [[snap1|e] s1] eqn:Hrun1;
    [| by rewrite processedEnv_runs in Hrun1].
  destruct (processedEnv inner (bound snap1 s1)) as [[snap2|e] s2] eqn:Hrun2;
    [| by rewrite processedEnv_runs in Hrun2].
  exists snap1, snap2, s1, s2. split; [done |]. split; [done |].
  match goal with |- fst (withSecrets outer ?h s) = _ =>
    destruct (withSecrets_runs dotenvx_parse outer h s snap1 s1 Hrun1) as [-> Hact1]
  end.
  unfold mbind at 1, M_bind at 1, bind at 1.
  destruct (withSecrets_runs dotenvx_parse inner (Secrets.getBinding k_inner)
              (bound snap1 s1) snap2 s2 Hrun2) as [-> Hact2].
  rewrite (getBinding_active_rec _ snap2 k_inner Hact2).
  unfold mbind, M_bind, bind.
  rewrite (getBinding_active_rec _ snap1 k_outer); [done |].
  (* the outer record is where it was: the inner one went to a new address *)
  destruct Hact1 as (l1 & Hst1 & Hl1).
  apply processedEnv_memory in Hrun2 as (Hheap2 & Hstore2 & _).
  exists l1. split; [done |]. unfold bound at 1. simpl.
  rewrite lookup_insert_ne; [by rewrite Hheap2 |].
  intros Heq. pose proof (is_fresh (dom (heap s2))) as Hfresh.
  rewrite Heq, Hheap2 in Hfresh. apply Hfresh, elem_of_dom. by eexists.
Qed.

(** X25.  The entry [__proto__] of a bag never becomes an own property of
    the snapshot, whatever its value: the assignment runs the setter
    inherited from [Object.prototype], so an object or [null] becomes the
    prototype of the snapshot and any other value is lost.  Every other
    entry of the bag is an own property of the snapshot. *)
Theorem own_proto_entry_is_never_stored (env : Obj) (s : State) :
  exists snap s',
    processedEnv env s = (Ok snap, s') /\
    own snap !! "__proto__" = None /\
    proto snap = match env !! "__proto__" with
                 | Some v => settled v
                 | None => VObjectPrototype
                 end /\
    (forall k, k <> "__proto__" -> is_Some (own snap !! k) <-> is_Some (env !! k)).
Proof.
  pose proof (processedEnv_runs dotenvx_parse env s) as Hrun.
  destruct (processedEnv_lookup dotenvx_parse env s _ _ Hrun) as [Hown Hproto].
  eexists _, _. split; [exact Hrun |]. split; [| split].
  - by rewrite Hown.
  - done.
  - intros k Hne. apply String.eqb_neq in Hne. rewrite Hown, Hne.
    apply fmap_is_Some.
Qed.

(** X8.  The private key is an entry like any other: when it is a string that
    is not itself marked, it stays in the snapshot and [getSecret] hands it
    to whoever asks under the reserved name. *)
Theorem private_key_stays_readable (env : Obj) (key : string) (s : State) :
  env !! "DOTENV_PRIVATE_KEY" = Some (VStr key) ->
  startsWith key "encrypted:" = false ->
  fst (withSecrets env (Secrets.getSecret "DOTENV_PRIVATE_KEY") s) = Ok (VStr key).
Proof.
  intros Hkey Hpre.
  pose proof (processedEnv_runs dotenvx_parse env s) as Hrun.
  destruct (processedEnv_lookup dotenvx_parse env s _ _ Hrun) as [Hown _].
  destruct (withSecrets_reads_own env "DOTENV_PRIVATE_KEY" (VStr key) s _ _ Hrun)
    as [_ ->]; [| done].
  rewrite Hown, Hkey. simpl. by rewrite Hpre.
Qed.

(** X9.  Through the record of [getEnv] a property reads as [getBinding] reads
    it. *)
Theorem getEnv_reads_as_getBinding (env : Obj) (k : string) (s : State) :
  fst (withSecrets env
         (whole ← Secrets.getEnv;
          match whole with
          | VRef l => get_prop l k
          | _ => ret VUndefined
          end) s)
    = fst (withSecrets env (Secrets.getBinding k) s).
Proof.
  pose proof (processedEnv_runs dotenvx_parse env s) as Hrun.
  rewrite (withSecrets_getBinding env k s _ _ Hrun).
  match goal with |- fst (withSecrets env ?h s) = _ =>
    destruct (withSecrets_runs dotenvx_parse env h s _ _ Hrun) as [-> (l & Hst & Hl)]
  end.
  unfold mbind, M_bind, bind.
  rewrite (getEnv_active _ l Hst). unfold get_prop.
  by rewrite (deref_active _ _ l Hst Hl).
Qed.

End ReaderFacts.

Section RequireFacts.

(** X10.  What [requireSecret] returns is a string, and the string [getSecret]
    returns: it never returns [undefined] nor a binding, and it leaves the
    state as it was. *)
Theorem requireSecret_returns_a_string (k : string) (s s' : State) (v : Value) :
  Secrets.requireSecret k s = (Ok v, s') ->
  (exists text, v = VStr text) /\ s' = s /\ Secrets.getSecret k s = (Ok v, s).
Proof.
  rewrite requireSecret_unfold. unfold Secrets.getSecret, mbind, M_bind, bind, getStore.
  destruct (store s) as [l|]; [| done].
  unfold get_prop, ret.
  destruct (lookup_in s (deref l s) k); simpl; try done.
  intros [= <- <-]. by eauto.
Qed.

End RequireFacts.

Lemma successful_decryption_stores_plaintext_witness :
  exists snap s',
    Secrets.processedEnv sample_parse sample_env initial = (Ok snap, s') /\
    own snap !! "MY_SECRET" = Some (VStr "plaintext1") /\
    fst (Secrets.withSecrets sample_parse sample_env
           (Secrets.getSecret "MY_SECRET") initial) = Ok (VStr "plaintext1") /\
    fst (Secrets.withSecrets sample_parse sample_env
           (Secrets.getBinding "MY_SECRET") initial) = Ok (VStr "plaintext1").
Proof.
  apply (successful_decryption_stores_plaintext sample_parse sample_env initial
           "MY_SECRET" "encrypted:abc" "plaintext1"); try reflexivity.
  discriminate.
Defined.

Lemma unmarked_bag_is_its_own_snapshot_witness :
  Secrets.processedEnv sample_parse plain_env initial = (Ok (plain plain_env), initial).
Proof.
  apply (unmarked_bag_is_its_own_snapshot sample_parse plain_env initial).
  - unfold plain_env.
    repeat (apply map_Forall_insert_2; [reflexivity |]).
    apply map_Forall_empty.
  - reflexivity.
Defined.

Lemma private_key_stays_readable_witness :
  fst (Secrets.withSecrets sample_parse sample_env
         (Secrets.getSecret "DOTENV_PRIVATE_KEY") initial) = Ok (VStr "k1").
Proof.
  apply (private_key_stays_readable sample_parse sample_env "k1" initial);
    reflexivity.
Defined.

Lemma requireSecret_returns_a_string_witness :
  (exists text, VStr "plain" = VStr text) /\
  bound (plain sample_env) initial = bound (plain sample_env) initial /\
  Secrets.getSecret "OTHER" (bound (plain sample_env) initial) =
    (Ok (VStr "plain"), bound (plain sample_env) initial).
Proof.
  apply (requireSecret_returns_a_string "OTHER"
           (bound (plain sample_env) initial) (bound (plain sample_env) initial)
           (VStr "plain")).
  reflexivity.
Defined.

(* ===================================================================== *)
(** ** The two secrets.ts side by side *)
(* ===================================================================== *)

Section EarlierFileFacts.

Variable dotenvx_parse : Parser.

Lemma strings_withSecrets_runs {T} env (handler : M T) s :
  exists snap s',
    SecretsStrings.secrets dotenvx_parse env s = (Ok (plain snap), s') /\
    (forall k, snap !! k =
       if String.eqb k "__proto__" then None
       else env !! k ≫= kept_string dotenvx_parse (prop env "DOTENV_PRIVATE_KEY")
                                                  (prop env "DOTENV_PUBLIC_KEY") k) /\
    SecretsStrings.withSecrets dotenvx_parse env handler s =
      (let '(r, s2) := handler (bound (plain snap) s') in
       (r, with_store (store s) s2)) /\
    active (bound (plain snap) s') snap.
Proof.
  destruct (strings_secrets_runs dotenvx_parse env s) as (o & Hrun & Hlook).
  exists o. eexists. split; [exact Hrun |].
  split; [done |]. split.
  - unfold SecretsStrings.withSecrets, mbind, M_bind, bind.
    rewrite Hrun. unfold alloc, run, bound. simpl.
    by destruct (handler _).
  - eexists. unfold bound. simpl. split; [done | by rewrite lookup_insert_eq].
Qed.

(** What [getSecret] returns to a handler is the same in both files for a
    name that [Object.prototype] does not hold, when the bag has no own
    [__proto__]: the bindings [src/secrets.ts] keeps in its snapshot are
    hidden by its [getSecret], and the earlier file never stored them. *)
Lemma getSecret_same_value env k s :
  env !! "__proto__" = None ->
  object_prototype_get VObjectPrototype k = VUndefined ->
  exists v,
    fst (Secrets.withSecrets dotenvx_parse env (Secrets.getSecret k) s) = Ok v /\
    fst (SecretsStrings.withSecrets dotenvx_parse env (SecretsStrings.getSecret k) s) = Ok v /\
    (v = VUndefined \/ exists text, v = VStr text).
Proof.
  intros Hp Hk.
  assert (String.eqb k "__proto__" = false) as Hne.
  { destruct (String.eqb k "__proto__") eqn:Heq; [| done].
    unfold object_prototype_get in Hk. by rewrite Heq in Hk. }
  pose proof (processedEnv_runs dotenvx_parse env s) as Hnew.
  destruct (processedEnv_plain dotenvx_parse env s _ _ Hp Hnew) as (o & Ho & Hlook).
  rewrite (withSecrets_getSecret dotenvx_parse env k s _ _ Hnew).
  rewrite Ho, lookup_in_plain.
  destruct (strings_withSecrets_runs env (SecretsStrings.getSecret k) s)
    as (snap & s' & _ & Hold & -> & Hact).
  rewrite (strings_getSecret_active _ snap k Hact). simpl.
  unfold prop. rewrite Hlook, Hold, Hne, Hk.
  destruct (env !! k) as [v|]; [| simpl; by eauto].
  destruct v as [| | b | n | text | h | l | |]; try (simpl; by eauto).
  destruct (stored_string dotenvx_parse (prop env "DOTENV_PRIVATE_KEY")
              (prop env "DOTENV_PUBLIC_KEY") k text) as (text' & Htext).
  cbn -[stored]. rewrite Htext. simpl.
  exists (VStr text'). repeat split. right. by exists text'.
Qed.

(** X11.  The readers of [src/secrets.ts] are compatible with those of the
    earlier file on the names [Object.prototype] does not hold: for every
    bag without own [__proto__] and every such name, [getSecret] and
    [requireSecret] called by the handler return the same value, or throw
    the same error, in both. *)
Theorem secret_readers_agree_across_files (env : Obj) (k : string) (s : State) :
  env !! "__proto__" = None ->
  object_prototype_get VObjectPrototype k = VUndefined ->
  fst (Secrets.withSecrets dotenvx_parse env (Secrets.getSecret k) s) =
    fst (SecretsStrings.withSecrets dotenvx_parse env (SecretsStrings.getSecret k) s) /\
  fst (Secrets.withSecrets dotenvx_parse env (Secrets.requireSecret k) s) =
    fst (SecretsStrings.withSecrets dotenvx_parse env (SecretsStrings.requireSecret k) s).
Proof.
  intros Hp Hk.
  destruct (getSecret_same_value env k s Hp Hk) as (v & Hnew & Hold & Hv).
  split; [by rewrite Hnew, Hold |].
  pose proof (processedEnv_runs dotenvx_parse env s) as Hrun.
  destruct (withSecrets_runs dotenvx_parse env (Secrets.requireSecret k) s _ _ Hrun)
    as [-> _].
  destruct (withSecrets_runs dotenvx_parse env (Secrets.getSecret k) s _ _ Hrun)
    as [Hn _]. rewrite Hn in Hnew. clear Hn.
  destruct (strings_withSecrets_runs env (SecretsStrings.requireSecret k) s)
    as (snap & s' & Hsec & _ & -> & _).
  destruct (strings_withSecrets_runs env (SecretsStrings.getSecret k) s)
    as (snap' & s'' & Hsec' & _ & Ho & _).
  rewrite Hsec in Hsec'. injection Hsec' as <- <-.
  rewrite Ho in Hold. clear Ho.
  rewrite requireSecret_unfold.
  unfold SecretsStrings.requireSecret, mbind, M_bind, bind.
  destruct (Secrets.getSecret k _) as [r1 t1].
  destruct (SecretsStrings.getSecret k _) as [r2 t2].
  simpl in Hnew, Hold. subst r1 r2.
  destruct Hv as [-> | (text & ->)]; done.
Qed.

(** X24.  The filter of [getSecret].  For a name under which
    [Object.prototype] holds a function, and which is not a string of the
    bag, the earlier [getSecret] returns the inherited function, and the
    earlier [requireSecret] returns it too; [getSecret] of [src/secrets.ts]
    returns [undefined] for a bag without own [__proto__]. *)
Theorem earlier_getSecret_returns_inherited_functions
    (env : Obj) (k : string) (s : State) :
  k ∈ object_prototype_methods ->
  (forall text, env !! k <> Some (VStr text)) ->
  fst (SecretsStrings.withSecrets dotenvx_parse env (SecretsStrings.getSecret k) s)
    = Ok (VBuiltin k) /\
  fst (SecretsStrings.withSecrets dotenvx_parse env (SecretsStrings.requireSecret k) s)
    = Ok (VBuiltin k) /\
  (env !! "__proto__" = None ->
   fst (Secrets.withSecrets dotenvx_parse env (Secrets.getSecret k) s) = Ok VUndefined).
Proof.
  intros Hin Hnot.
  assert (String.eqb k "__proto__" = false /\
          existsb (String.eqb k) object_prototype_methods = true) as [Hne Hex].
  { unfold object_prototype_methods in *.
    repeat (apply elem_of_cons in Hin as [-> | Hin]; [by split |]).
    by apply elem_of_nil in Hin. }
  assert (forall o : Obj, o !! k = None -> prop o k = VBuiltin k) as Hprop.
  { intros o Ho. unfold prop, object_prototype_get. by rewrite Ho, Hne, Hex. }
  destruct (strings_withSecrets_runs env (SecretsStrings.getSecret k) s)
    as (snap & s' & Hsec & Hold & Hget & Hact).
  assert (snap !! k = None) as Hsnap.
  { rewrite Hold, Hne. destruct (env !! k) as [v|] eqn:Hk; [| done]. simpl.
    destruct v; try done. by destruct (Hnot s0). }
  split; [| split].
  - rewrite Hget, (strings_getSecret_active _ snap k Hact). simpl.
    by rewrite Hprop.
  - destruct (strings_withSecrets_runs env (SecretsStrings.requireSecret k) s)
      as (snap' & s'' & Hsec' & _ & -> & _).
    rewrite Hsec in Hsec'. injection Hsec' as <- <-.
    unfold SecretsStrings.requireSecret, mbind, M_bind, bind.
    rewrite (strings_getSecret_active _ snap k Hact), Hprop by done. done.
  - intros Hp.
    pose proof (processedEnv_runs dotenvx_parse env s) as Hnew.
    destruct (processedEnv_plain dotenvx_parse env s _ _ Hp Hnew) as (o & Ho & Hlook).
    rewrite (withSecrets_getSecret dotenvx_parse env k s _ _ Hnew).
    rewrite Ho, lookup_in_plain.
    destruct (o !! k) as [v|] eqn:Hok.
    + rewrite (prop_lookup o k v Hok).
      rewrite Hlook in Hok. destruct (env !! k) as [v0|] eqn:Hk; [| done].
      simpl in Hok. injection Hok as <-.
      destruct v0; try done. by destruct (Hnot s0).
    + by rewrite Hprop.
Qed.

End EarlierFileFacts.

Lemma secret_readers_agree_across_files_witness :
  fst (Secrets.withSecrets sample_parse sample_env (Secrets.getSecret "DB") initial) =
    fst (SecretsStrings.withSecrets sample_parse sample_env
           (SecretsStrings.getSecret "DB") initial) /\
  fst (Secrets.withSecrets sample_parse sample_env (Secrets.requireSecret "DB") initial) =
    fst (SecretsStrings.withSecrets sample_parse sample_env
           (SecretsStrings.requireSecret "DB") initial).
Proof.
  apply (secret_readers_agree_across_files sample_parse sample_env "DB" initial);
    reflexivity.
Defined.

Lemma earlier_getSecret_returns_inherited_functions_witness :
  fst (SecretsStrings.withSecrets sample_parse sample_env
         (SecretsStrings.getSecret "toString") initial) = Ok (VBuiltin "toString") /\
  fst (SecretsStrings.withSecrets sample_parse sample_env
         (SecretsStrings.requireSecret "toString") initial) = Ok (VBuiltin "toString") /\
  (sample_env !! "__proto__" = None ->
   fst (Secrets.withSecrets sample_parse sample_env
          (Secrets.getSecret "toString") initial) = Ok VUndefined).
Proof.
  apply (earlier_getSecret_returns_inherited_functions sample_parse sample_env
           "toString" initial).
  - unfold object_prototype_methods. repeat constructor.
  - intros text. discriminate.
Defined.

(* ===================================================================== *)
(** ** src/dotenvx-decrypt.ts: more on [decryptEnv] *)
(* ===================================================================== *)

(** A stand-in for a primitive that needs no key from its caller: it
    recovers [plaintext1] from any assignment to [MY_SECRET]. *)
Definition lenient_parse : Parser :=
  fun src _ =>
    if startsWith src "MY_SECRET=" then Ok {[ "MY_SECRET" := "plaintext1" ]}
    else Ok ∅.

(** A bag whose private key is the empty string. *)
Definition empty_key_env : Obj :=
  <["DOTENV_PRIVATE_KEY" := VStr EmptyString]>
    (<["MY_SECRET" := VStr "encrypted:abc"]> (<["DB" := VHandle 1]> ∅)).

Section DecryptEnvFacts.

Variable dotenvx_parse : Parser.

Local Abbreviation decryptValue := (DotenvxDecrypt.decryptValue dotenvx_parse).
Local Abbreviation decryptEnv := (DotenvxDecrypt.decryptEnv dotenvx_parse).


(** A marked string under a string private key and a name other than
    [__proto__]: [decryptEnv] stores the plaintext when [decryptValue]
    returns one and keeps the marked string when it throws. *)
Lemma decryptEnv_marked env s k text :
  typeof (prop env "DOTENV_PRIVATE_KEY") = "string" ->
  env !! k = Some (VStr text) ->
  startsWith text "encrypted:" = true ->
  k <> "__proto__" ->
  exists eager s',
    decryptEnv env s = (Ok (plain eager), s') /\
    eager !! k = Some (match decryptValue k text (eager_options env) with
                       | Ok plain => VStr plain
                       | Throw _ => VStr text
                       end).
Proof.
  intros Hpk Hk Hpre Hne.
  destruct (decryptEnv_runs dotenvx_parse env s) as (eager & s' & Hrun & Hlook).
  exists eager, s'. split; [done |].
  apply String.eqb_neq in Hne.
  rewrite Hlook, Hpk, Hk, Hne. simpl. rewrite Hpre.
  by destruct (decryptValue k text (eager_options env)).
Qed.

(** X13.  The empty private key.  [decryptEnv] asks for a string,
    [withSecrets] for a truthy value: with the key [""] in the bag,
    [decryptEnv] hands a marked string, under a name other than [__proto__],
    to the primitive and stores what it recovers, while the snapshot of
    [withSecrets] keeps the marked string. *)
Theorem empty_key_decrypts_in_decryptEnv_only
    (env : Obj) (s : State) (k text recovered : string) :
  env !! "DOTENV_PRIVATE_KEY" = Some (VStr EmptyString) ->
  env !! k = Some (VStr text) ->
  startsWith text "encrypted:" = true ->
  decryptValue k text (eager_options env) = Ok recovered ->
  k <> "__proto__" ->
  (exists eager s',
     decryptEnv env s = (Ok (plain eager), s') /\ eager !! k = Some (VStr recovered)) /\
  (exists snap s',
     Secrets.processedEnv dotenvx_parse env s = (Ok snap, s') /\
     own snap !! k = Some (VStr text)).
Proof.
  intros Hkey Hk Hpre Hdec Hne.
  assert (prop env "DOTENV_PRIVATE_KEY" = VStr EmptyString) as Hpk
    by (by apply prop_lookup).
  split.
  - destruct (decryptEnv_marked env s k text) as (eager & s' & Hrun & Hlook);
      try done.
    { by rewrite Hpk. }
    exists eager, s'. split; [done |]. by rewrite Hlook, Hdec.
  - pose proof (processedEnv_runs dotenvx_parse env s) as Hrun.
    eexists _, _. split; [exact Hrun |].
    destruct (processedEnv_lookup dotenvx_parse env s _ _ Hrun) as [Hown _].
    apply String.eqb_neq in Hne.
    rewrite Hown, Hne, Hk. simpl. by rewrite Hpk, andb_false_r.
Qed.

(** X14.  With a private key that is a non-empty string and a public key
    that is a string or undefined, [decryptEnv] returns the record the
    earlier [withSecrets] binds. *)
Theorem decryptEnv_builds_the_earlier_snapshot (env : Obj) (s : State) :
  typeof (prop env "DOTENV_PRIVATE_KEY") = "string" ->
  truthy (prop env "DOTENV_PRIVATE_KEY") = true ->
  typeof (prop env "DOTENV_PUBLIC_KEY") = "string" \/
    prop env "DOTENV_PUBLIC_KEY" = VUndefined ->
  exists record s1 s2,
    decryptEnv env s = (Ok record, s1) /\
    SecretsStrings.secrets dotenvx_parse env s = (Ok record, s2).
Proof.
  intros Hty Hpk Hpub.
  destruct (decryptEnv_runs dotenvx_parse env s) as (eager & s1 & Hrun & Hlook).
  destruct (strings_secrets_runs dotenvx_parse env s) as (o & Hsec & Holook).
  exists (plain eager). eexists s1, _. split; [done |].
  rewrite Hsec. do 3 f_equal.
  apply map_eq. intros k. rewrite Hlook, Hty, Holook. simpl.
  destruct (String.eqb k "__proto__"); [done |].
  destruct (env !! k) as [v|]; [| done]. simpl.
  destruct v as [| | b | n | text | h | l | |]; try done.
  unfold kept, kept_string, resolved, stored. simpl.
  rewrite Hpk, andb_true_r, (eager_options_lazy env Hpub). done.
Qed.

End DecryptEnvFacts.

Lemma empty_key_decrypts_in_decryptEnv_only_witness :
  (exists eager s',
     DotenvxDecrypt.decryptEnv lenient_parse empty_key_env initial
       = (Ok (plain eager), s') /\
     eager !! "MY_SECRET" = Some (VStr "plaintext1")) /\
  (exists snap s',
     Secrets.processedEnv lenient_parse empty_key_env initial = (Ok snap, s') /\
     own snap !! "MY_SECRET" = Some (VStr "encrypted:abc")).
Proof.
  apply (empty_key_decrypts_in_decryptEnv_only lenient_parse empty_key_env initial
           "MY_SECRET" "encrypted:abc" "plaintext1"); try reflexivity.
  discriminate.
Defined.

Lemma decryptEnv_builds_the_earlier_snapshot_witness :
  exists record s1 s2,
    DotenvxDecrypt.decryptEnv sample_parse sample_env initial = (Ok record, s1) /\
    SecretsStrings.secrets sample_parse sample_env initial = (Ok record, s2).
Proof.
  apply (decryptEnv_builds_the_earlier_snapshot sample_parse sample_env initial).
  - reflexivity.
  - reflexivity.
  - right. reflexivity.
Defined.

(* ===================================================================== *)
(** ** src/dotenvx-decrypt.ts: more on the proxy *)
(* ===================================================================== *)

Section ProxyFacts.

Variable dotenvx_parse : Parser.

Local Abbreviation decryptValue := (DotenvxDecrypt.decryptValue dotenvx_parse).
Local Abbreviation proxy_get := (DotenvxDecrypt.proxy_get dotenvx_parse).
Local Abbreviation proxy_reads := (DotenvxDecrypt.proxy_reads dotenvx_parse).

(** The name is a marked string of the bag and [decryptValue], with the
    options of the trap, returns [plain] for it. *)
Definition opens (env : Obj) (k plain : string) : Prop :=
  exists text,
    env !! k = Some (VStr text) /\
    startsWith text "encrypted:" = true /\
    decryptValue k text (lazy_options env) = Ok plain.

(** X15.  Reading a name a second time returns what the first read returned and
    changes nothing more, whatever the proxy held before. *)
Theorem second_read_is_the_first (p : DotenvxDecrypt.DecryptProxy) (name : string) :
  proxy_get (snd (proxy_get p name)) name =
    (fst (proxy_get p name), snd (proxy_get p name)).
Proof.
  destruct (proxy_get p name) as [v q] eqn:Hfirst. simpl.
  unfold DotenvxDecrypt.proxy_get in Hfirst.
  destruct (DotenvxDecrypt.cache p !! name) as [hit|] eqn:Hhit.
  { injection Hfirst as <- <-. unfold DotenvxDecrypt.proxy_get. by rewrite Hhit. }
  destruct (prop (DotenvxDecrypt.target p) name) as [| | b | n | text | h | l | |] eqn:Hv;
    try (injection Hfirst as <- <-; unfold DotenvxDecrypt.proxy_get;
         by rewrite Hhit, Hv).
  simpl in Hfirst.
  destruct (startsWith text "encrypted:") eqn:Hpre.
  - destruct (decryptValue name text _) as [plain|e] eqn:Hdec.
    + injection Hfirst as <- <-. unfold DotenvxDecrypt.proxy_get. simpl.
      by rewrite lookup_insert_eq.
    + injection Hfirst as <- <-. unfold DotenvxDecrypt.proxy_get.
      rewrite Hhit, Hv. simpl. by rewrite Hpre, Hdec.
  - injection Hfirst as <- <-. unfold DotenvxDecrypt.proxy_get.
    rewrite Hhit, Hv. simpl. by rewrite Hpre.
Qed.

(** X16.  The cache is transparent: after any reads, in any order, a name reads
    as it does on a proxy just created. *)
Theorem reads_do_not_depend_on_history
    (env : Obj) (names : list string) (name : string) :
  fst (proxy_get (proxy_reads (DotenvxDecrypt.createDecryptProxy env) names) name) =
    fst (proxy_get (DotenvxDecrypt.createDecryptProxy env) name).
Proof.
  destruct (proxy_get_over dotenvx_parse env
              (proxy_reads (DotenvxDecrypt.createDecryptProxy env) names) name)
    as [-> _]; [apply proxy_reads_over, proxy_over_create |].
  destruct (proxy_get_over dotenvx_parse env
              (DotenvxDecrypt.createDecryptProxy env) name)
    as [-> _]; [apply proxy_over_create | done].
Qed.

Lemma opens_functional env k plain plain' :
  opens env k plain -> opens env k plain' -> plain = plain'.
Proof.
  intros (text & Hk & _ & Hdec) (text' & Hk' & _ & Hdec').
  rewrite Hk in Hk'. injection Hk' as <-. congruence.
Qed.

(** One read adds to the cache the plaintext of the name read, if it
    opens, and nothing else. *)
Lemma cache_after_read env p name k plain :
  proxy_over dotenvx_parse env p ->
  DotenvxDecrypt.cache (snd (proxy_get p name)) !! k = Some plain <->
  DotenvxDecrypt.cache p !! k = Some plain \/ (k = name /\ opens env k plain).
Proof.
  intros (Ht & Hpk & Hpub & Hcache).
  unfold DotenvxDecrypt.proxy_get.
  destruct (DotenvxDecrypt.cache p !! name) as [hit|] eqn:Hhit.
  { simpl. split; [by left |]. intros [Hk | [-> Hopen]]; [done |].
    rewrite Hhit. f_equal.
    apply (opens_functional env name); [by apply Hcache | done]. }
  rewrite Ht, Hpk, Hpub. fold (lazy_options env).
  assert (forall q, DotenvxDecrypt.cache q = DotenvxDecrypt.cache p ->
            ~ (exists d, opens env name d) ->
            DotenvxDecrypt.cache q !! k = Some plain <->
            DotenvxDecrypt.cache p !! k = Some plain \/ (k = name /\ opens env k plain))
    as Hsame.
  { intros q -> Hno. split; [by left |].
    intros [Hk | [-> Hopen]]; [done |]. destruct Hno. by exists plain. }
  destruct (prop env name) as [| | b | n | text | h | l | |] eqn:Hv; simpl;
    try (apply Hsame; [done |];
         intros (d & text' & Hname & _);
         rewrite (prop_lookup env name _ Hname) in Hv; congruence).
  assert (env !! name = Some (VStr text)) as Hname by (by apply prop_string).
  destruct (startsWith text "encrypted:") eqn:Hpre.
  - destruct (decryptValue name text (lazy_options env)) as [d|e] eqn:Hdec.
    + simpl. destruct (decide (k = name)) as [->|Hne].
      * rewrite lookup_insert_eq, Hhit. split.
        -- intros [= <-]. right. split; [done |]. by exists text.
        -- intros [Hk | [_ Hopen]]; [done |]. f_equal.
           apply (opens_functional env name); [by exists text | done].
      * rewrite lookup_insert_ne by done. split; [by left |].
        by intros [Hk | [-> _]].
    + apply Hsame; [done |].
      intros (d & text' & Hname' & _ & Hdec').
      rewrite Hname in Hname'. injection Hname' as <-. congruence.
  - apply Hsame; [done |].
    intros (d & text' & Hname' & Hpre' & _).
    rewrite Hname in Hname'. injection Hname' as <-. congruence.
Qed.

Lemma cache_after_reads env names : forall p k plain,
  proxy_over dotenvx_parse env p ->
  DotenvxDecrypt.cache (proxy_reads p names) !! k = Some plain <->
  DotenvxDecrypt.cache p !! k = Some plain \/ (k ∈ names /\ opens env k plain).
Proof.
  induction names as [|name names IH]; intros p k plain Hp.
  - simpl. split; [by left |]. intros [Hk | [Hin _]]; [done |].
    by apply elem_of_nil in Hin.
  - change (proxy_reads p (name :: names))
      with (proxy_reads (snd (proxy_get p name)) names).
    rewrite IH by (by apply proxy_get_over).
    rewrite (cache_after_read env p name k plain Hp), elem_of_cons.
    tauto.
Qed.

(** X17.  Decryption is paid for the names read, and kept: after the reads
    [names] on a new proxy, the cache holds a plaintext for a name exactly
    when the name was read, is a marked string of the bag, and
    [decryptValue] returned that plaintext.  A read that threw caches
    nothing. *)
Theorem cache_holds_what_was_read_and_opened
    (env : Obj) (names : list string) (k plain : string) :
  DotenvxDecrypt.cache (proxy_reads (DotenvxDecrypt.createDecryptProxy env) names) !! k
    = Some plain <->
  k ∈ names /\ opens env k plain.
Proof.
  rewrite (cache_after_reads env names _ k plain (proxy_over_create dotenvx_parse env)).
  simpl. rewrite lookup_empty. split; [by intros [Hk | Hk] | by right].
Qed.

(** X18.  The proxy and the snapshot of [src/secrets.ts].  For a bag
    without own [__proto__]: when the private key is present, or when the
    value of the name is not a marked string, the proxy returns for the
    name, after any reads, what [getBinding] returns under [withSecrets]:
    bindings, unmapped names and the names of [Object.prototype]
    included. *)
Theorem proxy_reads_as_getBinding
    (env : Obj) (names : list string) (name : string) (s : State) :
  env !! "__proto__" = None ->
  truthy (prop env "DOTENV_PRIVATE_KEY") = true \/
    DotenvxDecrypt.isEncrypted (prop env name) = false ->
  Ok (fst (proxy_get (proxy_reads (DotenvxDecrypt.createDecryptProxy env) names) name)) =
    fst (Secrets.withSecrets dotenvx_parse env (Secrets.getBinding name) s).
Proof.
  intros Hp Hcase.
  destruct (proxy_get_over dotenvx_parse env
              (proxy_reads (DotenvxDecrypt.createDecryptProxy env) names) name)
    as [-> _]; [apply proxy_reads_over, proxy_over_create |].
  pose proof (processedEnv_runs dotenvx_parse env s) as Hrun.
  rewrite (withSecrets_getBinding dotenvx_parse env name s _ _ Hrun). f_equal.
  destruct (processedEnv_plain dotenvx_parse env s _ _ Hp Hrun) as (o & -> & Hlook).
  rewrite lookup_in_plain.
  unfold prop at 2. rewrite Hlook.
  destruct (env !! name) as [v|] eqn:Hname.
  - rewrite (prop_lookup env name v Hname) in *. simpl.
    destruct v as [| | b | n | text | h | l | |]; try done.
    unfold resolved, stored, lazy_options. simpl.
    destruct (startsWith text "encrypted:") eqn:Hpre; [| done]. simpl.
    destruct Hcase as [Hpk | Henc].
    + by rewrite Hpk.
    + unfold DotenvxDecrypt.isEncrypted, startsWith in *. congruence.
  - simpl. unfold prop. rewrite Hname.
    apply resolved_not_encrypted. unfold object_prototype_get.
    destruct (String.eqb name "__proto__"); [done |].
    by destruct (existsb _ _).
Qed.

End ProxyFacts.

Lemma proxy_reads_as_getBinding_witness :
  Ok (fst (DotenvxDecrypt.proxy_get sample_parse
             (DotenvxDecrypt.proxy_reads sample_parse
                (DotenvxDecrypt.createDecryptProxy sample_env) ["OTHER"; "DB"])
             "MY_SECRET")) =
    fst (Secrets.withSecrets sample_parse sample_env
           (Secrets.getBinding "MY_SECRET") initial).
Proof.
  apply (proxy_reads_as_getBinding sample_parse sample_env
           ["OTHER"; "DB"] "MY_SECRET" initial).
  - reflexivity.
  - left. reflexivity.
Defined.

(** The sample bag read through the proxy in the order [BROKEN],
    [MY_SECRET], [DB], [MY_SECRET]: only [MY_SECRET] is cached. *)
Example sample_cache_after_reads :
  map_to_list
    (DotenvxDecrypt.cache
       (DotenvxDecrypt.proxy_reads sample_parse
          (DotenvxDecrypt.createDecryptProxy sample_env)
          ["BROKEN"; "MY_SECRET"; "DB"; "MY_SECRET"]))
    = [("MY_SECRET", "plaintext1")].
Proof. vm_compute. reflexivity. Qed.
